(** * vkmark: Vulkan context bring-up ([src/vulkan_state.cpp])

    A shallow embedding of [VulkanState] - instance creation, physical
    device selection, logical device creation, command pool creation and
    the device report - together with the properties of the bring-up
    sequence.

    Conventions.
    - Vulkan handles are integers; [0] is [VK_NULL_HANDLE].
    - [uint32_t] values are [Z]; conversions and wrap-around are written
      out ([to_uint32], [to_int]).
    - The Vulkan implementation and the window system are environments
      (records of functions); a native call that fails throws, which is
      the [None] answer of the environment.
    - The native calls that create a handle, hand one out or destroy
      one are appended to a trace, so that lifetime properties are
      statements about traces.  Property queries
      ([getQueueFamilyProperties], [getProperties]) create and destroy
      nothing; they are read as answers of the environment and are not
      part of the trace, which is therefore the record of the handles'
      lifetimes and not the list of all native calls. *)

From Stdlib Require Import ZArith List String Ascii Bool Lia QArith.
Import ListNotations.
Open Scope string_scope.
Open Scope list_scope.
Open Scope Z_scope.

(** ** Machine integers *)

Definition to_uint32 (z : Z) : Z := z mod 2 ^ 32.

(** [int]: two's complement on 32 bits. *)
Definition to_int (z : Z) : Z := (z + 2 ^ 31) mod 2 ^ 32 - 2 ^ 31.

Definition INT_MAX : Z := 2 ^ 31 - 1.

(** ** Vulkan data *)

Definition Handle := Z.
Definition VK_NULL_HANDLE : Handle := 0.

(** [explicit operator bool] of the vulkan.hpp handle classes. *)
Definition handle_bool (h : Handle) : bool := negb (h =? VK_NULL_HANDLE).

(** [vk::QueueFlagBits::eGraphics] is [VK_QUEUE_GRAPHICS_BIT = 0x1]. *)
Definition eGraphics : Z := 1.

(** [vk::CommandPoolCreateFlagBits::eResetCommandBuffer] is
    [VK_COMMAND_POOL_CREATE_RESET_COMMAND_BUFFER_BIT = 0x2]. *)
Definition eResetCommandBuffer : Z := 2.

Definition VK_KHR_SURFACE_EXTENSION_NAME : string := "VK_KHR_surface".
Definition VK_KHR_SWAPCHAIN_EXTENSION_NAME : string := "VK_KHR_swapchain".

Record QueueFamilyProperties := {
  queueFlags : Z;
  queueCount : Z
}.

Record PhysicalDeviceProperties := {
  vendorID : Z;
  deviceID : Z;
  deviceName : string;
  driverVersion : Z
}.

(** [vk::ApplicationInfo]; a null [char const*] is [None]. *)
Record ApplicationInfo := {
  pApplicationName : option string;
  applicationVersion : Z;
  pEngineName : option string;
  engineVersion : Z;
  apiVersion : Z
}.

Definition ApplicationInfo_default : ApplicationInfo :=
  {| pApplicationName := None; applicationVersion := 0;
     pEngineName := None; engineVersion := 0; apiVersion := 0 |}.

Definition setPApplicationName (n : string) (a : ApplicationInfo) :=
  {| pApplicationName := Some n;
     applicationVersion := applicationVersion a;
     pEngineName := pEngineName a;
     engineVersion := engineVersion a;
     apiVersion := apiVersion a |}.

(** [vk::InstanceCreateInfo]; a (count, pointer) pair is a list. *)
Record InstanceCreateInfo := {
  ici_flags : Z;
  pApplicationInfo : option ApplicationInfo;
  ppEnabledLayerNames : list string;
  ici_ppEnabledExtensionNames : list string
}.

Definition InstanceCreateInfo_default : InstanceCreateInfo :=
  {| ici_flags := 0; pApplicationInfo := None;
     ppEnabledLayerNames := []; ici_ppEnabledExtensionNames := [] |}.

(** [vk::DeviceQueueCreateInfo]; [pQueuePriorities] points to
    [queueCount] floats.  The only float of the program is the literal
    [1.0f], an exact rational. *)
Record DeviceQueueCreateInfo := {
  queueFamilyIndex : Z;
  dqci_queueCount : Z;
  pQueuePriorities : list Q
}.

(** [vk::PhysicalDeviceFeatures]: of its boolean fields the program
    touches [samplerAnisotropy] only; [otherFeatures] lists the names of
    any other field that is set. *)
Record PhysicalDeviceFeatures := {
  samplerAnisotropy : bool;
  otherFeatures : list string
}.

Definition PhysicalDeviceFeatures_default : PhysicalDeviceFeatures :=
  {| samplerAnisotropy := false; otherFeatures := [] |}.

Record DeviceCreateInfo := {
  pQueueCreateInfos : list DeviceQueueCreateInfo;
  dci_ppEnabledLayerNames : list string;
  dci_ppEnabledExtensionNames : list string;
  pEnabledFeatures : option PhysicalDeviceFeatures
}.

Record CommandPoolCreateInfo := {
  cp_flags : Z;
  cp_queueFamilyIndex : Z
}.

(** ** Environments *)

(** Modelled from the spec: the interface [VulkanWSI] (vulkan_wsi.h is
    not among the sources), with the method names the source calls: the
    instance extensions the window system requires, its
    presentation-compatibility predicate on physical devices, and the
    ordered queue family indices it needs for presentation on one. *)
Record VulkanWSI := {
  vulkan_extensions : list string;
  is_physical_device_supported : Handle -> bool;
  physical_device_queue_family_indices : Handle -> list Z
}.

(** The Vulkan implementation.  [None] is a failing native call, which
    vulkan.hpp turns into a thrown [vk::SystemError]. *)
Record Vulkan := {
  createInstance : InstanceCreateInfo -> option Handle;
  enumeratePhysicalDevices : Handle -> option (list Handle);
  getQueueFamilyProperties : Handle -> list QueueFamilyProperties;
  getProperties : Handle -> PhysicalDeviceProperties;
  createDevice : Handle -> DeviceCreateInfo -> option Handle;
  getQueue : Handle -> Z -> Z -> Handle;
  createCommandPool : Handle -> CommandPoolCreateInfo -> option Handle
}.

(** ** Native call trace and log *)

(** The calls that create handles ([createInstance], [createDevice],
    [createCommandPool]), hand out handles ([enumeratePhysicalDevices],
    [getQueue]) or destroy them.  The two property queries of the
    program, [pd.getQueueFamilyProperties()] in the selection loop and
    [physical_device().getProperties()] in [log_info], have no event:
    they are the functions of that name of [Vulkan]. *)

Inductive Event :=
| EvCreateInstance (ci : InstanceCreateInfo) (h : Handle)
| EvEnumeratePhysicalDevices (instance : Handle) (pds : list Handle)
| EvCreateDevice (pd : Handle) (ci : DeviceCreateInfo) (h : Handle)
| EvGetQueue (device : Handle) (family index : Z) (h : Handle)
| EvCreateCommandPool (device : Handle) (ci : CommandPoolCreateInfo) (h : Handle)
| EvDestroyCommandPool (device pool : Handle)
| EvDestroyDevice (device : Handle)
| EvDestroyInstance (instance : Handle).

Inductive LogLevel := LogInfo | LogDebug.

Record World := {
  native : list Event;
  logged : list (LogLevel * string)
}.

Definition World_empty : World := {| native := []; logged := [] |}.

Definition emit (e : Event) (w : World) : World :=
  {| native := native w ++ [e]; logged := logged w |}.

Definition emit_log (l : LogLevel) (s : string) (w : World) : World :=
  {| native := native w; logged := logged w ++ [(l, s)] |}.

(** ** ManagedResource *)

Module ManagedResource.
Section Wrapper.
Context {T D : Type}.

(** Modelled from the spec: the class template [ManagedResource<T>]
    (managed_resource.h is not among the sources).  A wrapper is either
    empty or holds a resource value with its destructor callback; the
    empty state is a sentinel of its own, whatever the resource value.
    An operation returns the destructor calls it performs, in order. *)
Definition t : Type := option (T * D).

(** Modelled from the spec: default construction, the no-op resource. *)
Definition empty : t := None.

(** Modelled from the spec: construction from a resource value and a
    destructor callback. *)
Definition make (raw : T) (destructor : D) : t := Some (raw, destructor).

(** Modelled from the spec: read access to the underlying value;
    [dflt] is [T{}], what an empty wrapper reads as. *)
Definition get (dflt : T) (m : t) : T :=
  match m with
  | Some (raw, _) => raw
  | None => dflt
  end.

(** Modelled from the spec: destruction (scope exit) and explicit
    reset; a non-empty wrapper invokes its callback once and becomes
    empty. *)
Definition destroy (m : t) : list (D * T) * t :=
  match m with
  | Some (raw, destructor) => ([(destructor, raw)], None)
  | None => ([], None)
  end.

(** Modelled from the spec: move construction; the new wrapper takes
    the contents, the source is emptied.  The result is (new wrapper,
    source afterwards). *)
Definition move (src : t) : t * t := (src, None).

(** Modelled from the spec: move assignment (replacement); the target
    releases what it holds, then takes the contents of the source,
    which is emptied.  The result is (calls, target afterwards, source
    afterwards). *)
Definition move_assign (dst src : t) : list (D * T) * t * t :=
  let '(calls, _) := destroy dst in
  let '(taken, src') := move src in
  (calls, taken, src').
End Wrapper.
Arguments t : clear implicits.
End ManagedResource.

(** The three destructor callbacks of the program, one per lambda:
    [[] (auto& i) { i.destroy(); }],
    [[] (auto& d) { d.destroy(); }] and
    [[this] (auto& cp) { this->device().destroyCommandPool(cp); }]. *)
Inductive Destructor :=
| DestroyInstance
| DestroyDevice
| DestroyCommandPoolOfThis.

Definition Managed := ManagedResource.t Handle Destructor.

(** ** VulkanState *)

(** The members that vulkan_state.cpp reads and writes.  The class is
    declared in vulkan_state.h, which is not among the sources: the
    three owned handles are wrappers (the source assigns
    [ManagedResource]s to them), the queue and the physical device are
    plain handles, the family index is a [uint32_t]. *)
Record VulkanState := {
  vk_instance : Managed;
  vk_device : Managed;
  vk_command_pool : Managed;
  vk_graphics_queue : Handle;
  vk_physical_device : Handle;
  vk_graphics_queue_family_index : Z
}.

(** The members before the constructor body runs: empty wrappers, null
    handles.  [vk_graphics_queue_family_index] has no initialiser; its
    indeterminate value is the parameter [garbage]. *)
Definition VulkanState_init (garbage : Z) : VulkanState :=
  {| vk_instance := ManagedResource.empty;
     vk_device := ManagedResource.empty;
     vk_command_pool := ManagedResource.empty;
     vk_graphics_queue := VK_NULL_HANDLE;
     vk_physical_device := VK_NULL_HANDLE;
     vk_graphics_queue_family_index := to_uint32 garbage |}.

Definition set_vk_instance (m : Managed) (s : VulkanState) : VulkanState :=
  {| vk_instance := m;
     vk_device := vk_device s;
     vk_command_pool := vk_command_pool s;
     vk_graphics_queue := vk_graphics_queue s;
     vk_physical_device := vk_physical_device s;
     vk_graphics_queue_family_index := vk_graphics_queue_family_index s |}.

Definition set_vk_device (m : Managed) (s : VulkanState) : VulkanState :=
  {| vk_instance := vk_instance s;
     vk_device := m;
     vk_command_pool := vk_command_pool s;
     vk_graphics_queue := vk_graphics_queue s;
     vk_physical_device := vk_physical_device s;
     vk_graphics_queue_family_index := vk_graphics_queue_family_index s |}.

Definition set_vk_command_pool (m : Managed) (s : VulkanState) : VulkanState :=
  {| vk_instance := vk_instance s;
     vk_device := vk_device s;
     vk_command_pool := m;
     vk_graphics_queue := vk_graphics_queue s;
     vk_physical_device := vk_physical_device s;
     vk_graphics_queue_family_index := vk_graphics_queue_family_index s |}.

Definition set_vk_graphics_queue (h : Handle) (s : VulkanState) : VulkanState :=
  {| vk_instance := vk_instance s;
     vk_device := vk_device s;
     vk_command_pool := vk_command_pool s;
     vk_graphics_queue := h;
     vk_physical_device := vk_physical_device s;
     vk_graphics_queue_family_index := vk_graphics_queue_family_index s |}.

Definition set_vk_physical_device (h : Handle) (s : VulkanState) : VulkanState :=
  {| vk_instance := vk_instance s;
     vk_device := vk_device s;
     vk_command_pool := vk_command_pool s;
     vk_graphics_queue := vk_graphics_queue s;
     vk_physical_device := h;
     vk_graphics_queue_family_index := vk_graphics_queue_family_index s |}.

Definition set_vk_graphics_queue_family_index (i : Z) (s : VulkanState) : VulkanState :=
  {| vk_instance := vk_instance s;
     vk_device := vk_device s;
     vk_command_pool := vk_command_pool s;
     vk_graphics_queue := vk_graphics_queue s;
     vk_physical_device := vk_physical_device s;
     vk_graphics_queue_family_index := i |}.

(** Modelled from the spec: the accessors of vulkan_state.h (not among
    the sources) for the instance, the device, the command pool, the
    chosen physical device and the graphics queue family index; each
    returns the member, a wrapper converting to the value it holds. *)
Definition instance (s : VulkanState) : Handle :=
  ManagedResource.get VK_NULL_HANDLE (vk_instance s).
Definition device (s : VulkanState) : Handle :=
  ManagedResource.get VK_NULL_HANDLE (vk_device s).
Definition command_pool (s : VulkanState) : Handle :=
  ManagedResource.get VK_NULL_HANDLE (vk_command_pool s).
Definition physical_device (s : VulkanState) : Handle := vk_physical_device s.
Definition graphics_queue_family_index (s : VulkanState) : Z :=
  vk_graphics_queue_family_index s.

(** Running a destructor callback on the value it was stored with.  The
    command pool's callback captured [this], so it reads the object's
    device at the time of the call. *)
Definition run_destructor (this : VulkanState) (c : Destructor * Handle)
    (w : World) : World :=
  match c with
  | (DestroyInstance, i) => emit (EvDestroyInstance i) w
  | (DestroyDevice, d) => emit (EvDestroyDevice d) w
  | (DestroyCommandPoolOfThis, cp) => emit (EvDestroyCommandPool (device this) cp) w
  end.

Definition run_destructors (this : VulkanState) (cs : list (Destructor * Handle))
    (w : World) : World :=
  fold_left (fun w c => run_destructor this c w) cs w.

(** ** Exceptions and the method monad *)

Inductive Exception :=
| runtime_error (what : string)
| SystemError (call : string).

Inductive Result (A : Type) :=
| Ok (a : A)
| Throw (e : Exception).
Arguments Ok {A} a.
Arguments Throw {A} e.

(** A method body: reads and writes the object and the world, returns or
    throws.  The object and the world as they are at the throw are kept:
    unwinding needs them. *)
Definition M (A : Type) : Type :=
  VulkanState -> World -> Result A * VulkanState * World.

Definition ret {A} (a : A) : M A := fun s w => (Ok a, s, w).

Definition bind {A B} (m : M A) (k : A -> M B) : M B :=
  fun s w =>
    match m s w with
    | (Ok a, s', w') => k a s' w'
    | (Throw e, s', w') => (Throw e, s', w')
    end.

Definition throw {A} (e : Exception) : M A := fun s w => (Throw e, s, w).
Definition this_ : M VulkanState := fun s w => (Ok s, s, w).
Definition modify (f : VulkanState -> VulkanState) : M unit :=
  fun s w => (Ok tt, f s, w).
Definition call (e : Event) : M unit := fun s w => (Ok tt, s, emit e w).
Definition log (l : LogLevel) (msg : string) : M unit :=
  fun s w => (Ok tt, s, emit_log l msg w).

(** A native call that may fail. *)
Definition native_call {A} (name : string) (r : option A) : M A :=
  match r with
  | Some a => ret a
  | None => throw (SystemError name)
  end.

Declare Scope method_scope.
Delimit Scope method_scope with method.
Notation "x <- m ;; k" := (bind m (fun x => k))
  (at level 61, m at next level, right associativity) : method_scope.
Notation "m ;; k" := (bind m (fun _ => k))
  (at level 61, right associativity) : method_scope.
Open Scope method_scope.

(** [member = ManagedResource<T>{raw, destructor}]: a temporary wrapper is
    built, move-assigned to the member (which first releases what it
    held), and destroyed, empty, at the end of the statement. *)
Definition assign_managed (member : VulkanState -> Managed)
    (set : Managed -> VulkanState -> VulkanState)
    (raw : Handle) (destructor : Destructor) : M unit :=
  fun s w =>
    let tmp := ManagedResource.make raw destructor in
    let '(calls, dst, tmp') := ManagedResource.move_assign (member s) tmp in
    let w1 := run_destructors s calls w in
    let s1 := set dst s in
    let '(calls', _) := ManagedResource.destroy tmp' in
    (Ok tt, s1, run_destructors s1 calls' w1).

(** ** printf *)

(** The conversions of the C library's printf that the program uses,
    each with one argument: [%X] (unsigned, upper-case hexadecimal),
    [%u] (unsigned decimal), [%d] (signed decimal), [%s] (the characters
    up to the terminating NUL). *)

Definition digit_char (d : Z) : ascii :=
  if d <? 10 then ascii_of_nat (48 + Z.to_nat d)
  else ascii_of_nat (55 + Z.to_nat d).

(** The digits of [n >= 0] in [base], most significant first, without
    leading zeros; 32 rounds cover every 32-bit value in any base. *)
Fixpoint render_digits (fuel : nat) (base n : Z) (acc : string) : string :=
  match fuel with
  | O => acc
  | S fuel' =>
      let acc' := String (digit_char (n mod base)) acc in
      if n / base =? 0 then acc' else render_digits fuel' base (n / base) acc'
  end.

Definition fmt_X (v : Z) : string := render_digits 32 16 (to_uint32 v) "".
Definition fmt_u (v : Z) : string := render_digits 32 10 (to_uint32 v) "".
Definition fmt_d (v : Z) : string :=
  let i := to_int v in
  if i <? 0 then String "-" (render_digits 32 10 (- i) "")
  else render_digits 32 10 i "".

(** Reading digits back: the value of a digit character ([0-9], [A-F])
    and of a digit string in [base], continuing from [v]. *)
Definition digit_value (c : ascii) : Z :=
  let n := Z.of_nat (nat_of_ascii c) in
  if n <? 58 then n - 48 else n - 55.

Fixpoint parse_digits (base : Z) (s : string) (v : Z) : Z :=
  match s with
  | EmptyString => v
  | String c rest => parse_digits base rest (v * base + digit_value c)
  end.

(** A char array read as a C string. *)
Fixpoint c_str (s : string) : string :=
  match s with
  | EmptyString => EmptyString
  | String c rest => if Ascii.eqb c zero then EmptyString else String c (c_str rest)
  end.

Inductive Arg :=
| ArgInt (z : Z)
| ArgStr (s : string).

Definition conversion (c : ascii) (a : Arg) : string :=
  match a with
  | ArgInt z =>
      if Ascii.eqb c "X" then fmt_X z
      else if Ascii.eqb c "u" then fmt_u z
      else if Ascii.eqb c "d" then fmt_d z
      else EmptyString
  | ArgStr s => if Ascii.eqb c "s" then c_str s else EmptyString
  end.

(** A format with one conversion: the text before it, the converted
    argument, the text after it. *)
Fixpoint sprintf (fmt : string) (a : Arg) : string :=
  match fmt with
  | EmptyString => EmptyString
  | String "%" (String c rest) => (conversion c a ++ rest)%string
  | String ch rest => String ch (sprintf rest a)
  end.

(** The C escape [\n]. *)
Definition LF : string := String "010" EmptyString.

(** ** The methods of VulkanState *)

Section Methods.
Variable vk : Vulkan.
Variable vulkan_wsi : VulkanWSI.

(** Modelled from the spec: [Log::info] and [Log::debug] (log.h is not
    among the sources) take a printf format and its arguments and emit
    the formatted text, which the log records with its level. *)
Definition Log_info (fmt : string) (a : Arg) : M unit :=
  log LogInfo (sprintf fmt a).
Definition Log_debug (fmt : string) (a : Arg) : M unit :=
  log LogDebug (sprintf fmt a).

Definition log_info : M unit :=
  s <- this_ ;;
  let props := getProperties vk (physical_device s) in
  Log_info ("    Vendor ID:      0x%X" ++ LF) (ArgInt (vendorID props)) ;;
  Log_info ("    Device ID:      0x%X" ++ LF) (ArgInt (deviceID props)) ;;
  Log_info ("    Device Name:    %s" ++ LF) (ArgStr (deviceName props)) ;;
  Log_info ("    Driver Version: %u" ++ LF) (ArgInt (driverVersion props)).

Definition setPApplicationInfo (a : ApplicationInfo) (ci : InstanceCreateInfo) :=
  {| ici_flags := ici_flags ci;
     pApplicationInfo := Some a;
     ppEnabledLayerNames := ppEnabledLayerNames ci;
     ici_ppEnabledExtensionNames := ici_ppEnabledExtensionNames ci |}.

(** [setEnabledExtensionCount] and [setPpEnabledExtensionNames]
    together. *)
Definition setEnabledExtensions (names : list string) (ci : InstanceCreateInfo) :=
  {| ici_flags := ici_flags ci;
     pApplicationInfo := pApplicationInfo ci;
     ppEnabledLayerNames := ppEnabledLayerNames ci;
     ici_ppEnabledExtensionNames := names |}.

Definition instance_create_info : InstanceCreateInfo :=
  let app_info := setPApplicationName "vkmark" ApplicationInfo_default in
  let enabled_extensions :=
    vulkan_extensions vulkan_wsi ++ [VK_KHR_SURFACE_EXTENSION_NAME] in
  setEnabledExtensions enabled_extensions
    (setPApplicationInfo app_info InstanceCreateInfo_default).

Definition create_instance : M unit :=
  let create_info := instance_create_info in
  i <- native_call "vk::createInstance" (createInstance vk create_info) ;;
  call (EvCreateInstance create_info i) ;;
  assign_managed vk_instance set_vk_instance i DestroyInstance.

(** The test of the inner loop: [queueCount > 0 && (queueFlags & eGraphics)]. *)
Definition is_graphics_family (queue_family : QueueFamilyProperties) : bool :=
  (0 <? queueCount queue_family)
  && negb (Z.land (queueFlags queue_family) eGraphics =? 0).

(** The inner loop, from [queue_index] on; [queue_index] is an [int],
    the member it is stored in a [uint32_t]. *)
Fixpoint scan_queue_families (pd : Handle)
    (queue_families : list QueueFamilyProperties) (queue_index : Z)
    (s : VulkanState) : VulkanState :=
  match queue_families with
  | [] => s
  | queue_family :: rest =>
      if is_graphics_family queue_family then
        set_vk_graphics_queue_family_index (to_uint32 queue_index)
          (set_vk_physical_device pd s)
      else scan_queue_families pd rest (to_int (queue_index + 1)) s
  end.

(** The outer loop. *)
Fixpoint scan_physical_devices (physical_devices : list Handle)
    (s : VulkanState) : VulkanState :=
  match physical_devices with
  | [] => s
  | pd :: rest =>
      if negb (is_physical_device_supported vulkan_wsi pd) then
        scan_physical_devices rest s
      else
        let queue_families := getQueueFamilyProperties vk pd in
        let s' := scan_queue_families pd queue_families 0 s in
        if handle_bool (vk_physical_device s') then s'
        else scan_physical_devices rest s'
  end.

Definition NoSuitableDeviceError : Exception :=
  runtime_error "No suitable Vulkan physical devices found".

Definition choose_physical_device : M unit :=
  s <- this_ ;;
  physical_devices <-
    native_call "vk::Instance::enumeratePhysicalDevices"
      (enumeratePhysicalDevices vk (instance s)) ;;
  call (EvEnumeratePhysicalDevices (instance s) physical_devices) ;;
  modify (scan_physical_devices physical_devices) ;;
  s' <- this_ ;;
  if negb (handle_bool (vk_physical_device s')) then
    throw NoSuitableDeviceError
  else ret tt.

(** [std::find(begin, end, x) == end]. *)
Definition not_found (x : Z) (l : list Z) : bool :=
  negb (existsb (Z.eqb x) l).

(** The queue family indices after the graphics family is merged in. *)
Definition merged_queue_family_indices (queue_family_indices : list Z)
    (graphics : Z) : list Z :=
  if not_found graphics queue_family_indices then
    queue_family_indices ++ [graphics]
  else queue_family_indices.

Definition queue_create_info (priority : Q) (index : Z) : DeviceQueueCreateInfo :=
  {| queueFamilyIndex := index;
     dqci_queueCount := 1;
     pQueuePriorities := [priority] |}.

Definition device_create_info (s : VulkanState) : DeviceCreateInfo :=
  let priority := 1%Q in
  let queue_family_indices :=
    merged_queue_family_indices
      (physical_device_queue_family_indices vulkan_wsi (physical_device s))
      (graphics_queue_family_index s) in
  let queue_create_infos :=
    map (queue_create_info priority) queue_family_indices in
  let enabled_extensions := [VK_KHR_SWAPCHAIN_EXTENSION_NAME] in
  let device_features :=
    {| samplerAnisotropy := true;
       otherFeatures := otherFeatures PhysicalDeviceFeatures_default |} in
  {| pQueueCreateInfos := queue_create_infos;
     dci_ppEnabledLayerNames := [];
     dci_ppEnabledExtensionNames := enabled_extensions;
     pEnabledFeatures := Some device_features |}.

Definition create_device : M unit :=
  s <- this_ ;;
  match physical_device_queue_family_indices vulkan_wsi (physical_device s) with
  | front :: _ =>
      Log_debug ("VulkanState: Using queue family index %d for WSI operations" ++ LF)
        (ArgInt front)
  | [] => ret tt
  end ;;
  Log_debug ("VulkanState: Using queue family index %d for rendering" ++ LF)
    (ArgInt (graphics_queue_family_index s)) ;;
  let create_info := device_create_info s in
  d <- native_call "vk::PhysicalDevice::createDevice"
         (createDevice vk (physical_device s) create_info) ;;
  call (EvCreateDevice (physical_device s) create_info d) ;;
  assign_managed vk_device set_vk_device d DestroyDevice ;;
  s' <- this_ ;;
  let q := getQueue vk (device s') (graphics_queue_family_index s') 0 in
  call (EvGetQueue (device s') (graphics_queue_family_index s') 0 q) ;;
  modify (set_vk_graphics_queue q).

Definition command_pool_create_info (s : VulkanState) : CommandPoolCreateInfo :=
  {| cp_flags := eResetCommandBuffer;
     cp_queueFamilyIndex := graphics_queue_family_index s |}.

Definition create_command_pool : M unit :=
  s <- this_ ;;
  let create_info := command_pool_create_info s in
  cp <- native_call "vk::Device::createCommandPool"
          (createCommandPool vk (device s) create_info) ;;
  call (EvCreateCommandPool (device s) create_info cp) ;;
  assign_managed vk_command_pool set_vk_command_pool cp DestroyCommandPoolOfThis.

(** The body of [VulkanState::VulkanState]. *)
Definition constructor_body : M unit :=
  create_instance ;;
  choose_physical_device ;;
  create_device ;;
  create_command_pool.

(** The destructor of one wrapper member: its callback, if any, runs
    against the object as it is then. *)
Definition destroy_member (member : VulkanState -> Managed)
    (set : Managed -> VulkanState -> VulkanState)
    (sw : VulkanState * World) : VulkanState * World :=
  let '(s, w) := sw in
  let '(calls, m) := ManagedResource.destroy (member s) in
  (set m s, run_destructors s calls w).

(** Modelled from the spec: the order in which the members of
    [VulkanState] are destroyed (the class is declared in
    vulkan_state.h, which is not among the sources): the reverse of the
    order of creation, the command pool, then the device, then the
    instance. *)
Definition destroy_members (s : VulkanState) (w : World) : VulkanState * World :=
  destroy_member vk_instance set_vk_instance
    (destroy_member vk_device set_vk_device
       (destroy_member vk_command_pool set_vk_command_pool (s, w))).

(** Construction.  When the body throws, the members are destroyed and
    the exception leaves the constructor: there is no object. *)
Definition VulkanState_new (garbage : Z) (w : World) : Result VulkanState * World :=
  match constructor_body (VulkanState_init garbage) w with
  | (Ok _, s, w') => (Ok s, w')
  | (Throw e, s, w') => (Throw e, snd (destroy_members s w'))
  end.

(** Teardown of a constructed object. *)
Definition VulkanState_delete (s : VulkanState) (w : World) : World :=
  snd (destroy_members s w).

End Methods.

(** ** Suitability of a physical device *)

(** A queue family that can do graphics: it has queues, and the graphics
    capability bit of its flags is set. *)
Definition graphics_capable (qf : QueueFamilyProperties) : bool :=
  (0 <? queueCount qf) && Z.testbit (queueFlags qf) 0.

(** A device the bring-up can use: the window system supports it and one
    of its queue families can do graphics. *)
Definition suitable (vk : Vulkan) (vulkan_wsi : VulkanWSI) (pd : Handle) : bool :=
  is_physical_device_supported vulkan_wsi pd
  && existsb graphics_capable (getQueueFamilyProperties vk pd).


(** The queue family indices of a device create info, in order. *)
Definition requested_families (ci : DeviceCreateInfo) : list Z :=
  map queueFamilyIndex (pQueueCreateInfos ci).

(** [ci] is what [create_device], run on [s] and [w], passes to the
    native device creation: when the call succeeds the trace has it with
    [ci]; when it fails, the failure is the one [create_device] throws. *)
Definition passed_to_createDevice (vk : Vulkan) (vulkan_wsi : VulkanWSI)
    (s : VulkanState) (w : World) (ci : DeviceCreateInfo) : Prop :=
  match createDevice vk (physical_device s) ci with
  | Some d =>
      exists s' w',
        create_device vk vulkan_wsi s w = (Ok tt, s', w')
        /\ In (EvCreateDevice (physical_device s) ci d) (native w')
  | None =>
      exists w',
        create_device vk vulkan_wsi s w =
        (Throw (SystemError "vk::PhysicalDevice::createDevice"), s, w')
  end.

(** ** A concrete machine *)

(** Two GPUs: the window system cannot present on the first; the second
    has a transfer family, a compute family and, at index 2, a graphics
    family. *)
Module Machine.

Definition deviceA : Handle := 101.
Definition deviceB : Handle := 102.

Definition transfer_family : QueueFamilyProperties :=
  {| queueFlags := 4; queueCount := 1 |}.
Definition compute_family : QueueFamilyProperties :=
  {| queueFlags := 6; queueCount := 2 |}.
Definition graphics_family : QueueFamilyProperties :=
  {| queueFlags := 7; queueCount := 4 |}.

Definition properties (pd : Handle) : PhysicalDeviceProperties :=
  {| vendorID := 32902; deviceID := 6439;
     deviceName := "Mesa GPU";
     driverVersion := 88084484 |}.

Definition vk : Vulkan :=
  {| createInstance := fun _ => Some 1;
     enumeratePhysicalDevices := fun _ => Some [deviceA; deviceB];
     getQueueFamilyProperties := fun pd =>
       if pd =? deviceB then [transfer_family; compute_family; graphics_family]
       else [graphics_family];
     getProperties := properties;
     createDevice := fun _ _ => Some 2;
     getQueue := fun _ _ _ => 3;
     createCommandPool := fun _ _ => Some 4 |}.

(** A window system that presents on [deviceB] only, through the given
    queue families. *)
Definition wsi (families : list Z) : VulkanWSI :=
  {| vulkan_extensions := ["VK_KHR_xcb_surface"];
     is_physical_device_supported := fun pd => pd =? deviceB;
     physical_device_queue_family_indices := fun _ => families |}.

(** A window system that presents nowhere. *)
Definition headless : VulkanWSI :=
  {| vulkan_extensions := [];
     is_physical_device_supported := fun _ => false;
     physical_device_queue_family_indices := fun _ => [] |}.

(** The object once [deviceB] and its family 2 are chosen. *)
Definition chosen : VulkanState :=
  set_vk_graphics_queue_family_index 2
    (set_vk_physical_device deviceB
       (set_vk_instance (ManagedResource.make 1 DestroyInstance)
          (VulkanState_init 0))).

End Machine.

(** Calling a method [n] times in a row. *)
Fixpoint times (n : nat) (m : M unit) : M unit :=
  match n with
  | O => ret tt
  | S n' => m ;; times n' m
  end.

(** The four lines of the device report. *)
Definition report_lines (props : PhysicalDeviceProperties) : list (LogLevel * string) :=
  [(LogInfo, ("    Vendor ID:      0x" ++ fmt_X (vendorID props) ++ LF)%string);
   (LogInfo, ("    Device ID:      0x" ++ fmt_X (deviceID props) ++ LF)%string);
   (LogInfo, ("    Device Name:    " ++ c_str (deviceName props) ++ LF)%string);
   (LogInfo, ("    Driver Version: " ++ fmt_u (driverVersion props) ++ LF)%string)].

(** Two objects with the same wrappers and the same queue handle: what
    the selection loops leave alone. *)
Definition same_resources (s s' : VulkanState) : Prop :=
  vk_instance s' = vk_instance s
  /\ vk_device s' = vk_device s
  /\ vk_command_pool s' = vk_command_pool s
  /\ vk_graphics_queue s' = vk_graphics_queue s.

(** ** What a trace leaves allocated *)

(** The handles alive after a trace, each child with its parent:
    physical devices and logical devices belong to an instance, command
    pools to a device. *)
Record Live := {
  live_instances : list Handle;
  live_physical_devices : list (Handle * Handle);
  live_devices : list (Handle * Handle);
  live_command_pools : list (Handle * Handle)
}.

Definition Live_empty : Live :=
  {| live_instances := []; live_physical_devices := [];
     live_devices := []; live_command_pools := [] |}.

Definition mem (h : Handle) (l : list Handle) : bool := existsb (Z.eqb h) l.

Definition pair_eqb (a b : Handle * Handle) : bool :=
  (fst a =? fst b) && (snd a =? snd b).

Definition has_parent (p : Handle) (l : list (Handle * Handle)) : bool :=
  existsb (fun cp => snd cp =? p) l.

Definition parent_of (c : Handle) (l : list (Handle * Handle)) : option Handle :=
  option_map snd (find (fun cp => fst cp =? c) l).

Fixpoint remove_first {A} (p : A -> bool) (l : list A) : list A :=
  match l with
  | [] => []
  | y :: rest => if p y then rest else y :: remove_first p rest
  end.

(** One native call against the live handles; [None] when the call is
    not valid there: it uses a handle that is not alive, or destroys one
    that still has children. *)
Definition step (l : Live) (e : Event) : option Live :=
  match e with
  | EvCreateInstance _ h =>
      Some {| live_instances := h :: live_instances l;
              live_physical_devices := live_physical_devices l;
              live_devices := live_devices l;
              live_command_pools := live_command_pools l |}
  | EvEnumeratePhysicalDevices i pds =>
      if mem i (live_instances l) then
        Some {| live_instances := live_instances l;
                live_physical_devices :=
                  map (fun pd => (pd, i)) pds ++ live_physical_devices l;
                live_devices := live_devices l;
                live_command_pools := live_command_pools l |}
      else None
  | EvCreateDevice pd _ h =>
      match parent_of pd (live_physical_devices l) with
      | Some i =>
          Some {| live_instances := live_instances l;
                  live_physical_devices := live_physical_devices l;
                  live_devices := (h, i) :: live_devices l;
                  live_command_pools := live_command_pools l |}
      | None => None
      end
  | EvGetQueue d _ _ _ =>
      if mem d (map fst (live_devices l)) then Some l else None
  | EvCreateCommandPool d _ h =>
      if mem d (map fst (live_devices l)) then
        Some {| live_instances := live_instances l;
                live_physical_devices := live_physical_devices l;
                live_devices := live_devices l;
                live_command_pools := (h, d) :: live_command_pools l |}
      else None
  | EvDestroyCommandPool d cp =>
      if existsb (pair_eqb (cp, d)) (live_command_pools l)
         && mem d (map fst (live_devices l)) then
        Some {| live_instances := live_instances l;
                live_physical_devices := live_physical_devices l;
                live_devices := live_devices l;
                live_command_pools :=
                  remove_first (pair_eqb (cp, d)) (live_command_pools l) |}
      else None
  | EvDestroyDevice d =>
      if mem d (map fst (live_devices l))
         && negb (has_parent d (live_command_pools l)) then
        Some {| live_instances := live_instances l;
                live_physical_devices := live_physical_devices l;
                live_devices :=
                  remove_first (fun di => fst di =? d) (live_devices l);
                live_command_pools := live_command_pools l |}
      else None
  | EvDestroyInstance i =>
      if mem i (live_instances l) && negb (has_parent i (live_devices l)) then
        Some {| live_instances := remove_first (Z.eqb i) (live_instances l);
                live_physical_devices :=
                  filter (fun pi => negb (snd pi =? i)) (live_physical_devices l);
                live_devices := live_devices l;
                live_command_pools := live_command_pools l |}
      else None
  end.

Fixpoint replay (l : Live) (trace : list Event) : option Live :=
  match trace with
  | [] => Some l
  | e :: rest =>
      match step l e with
      | Some l' => replay l' rest
      | None => None
      end
  end.

(** Nothing that the program owns is left: no instance, no logical
    device, no command pool. *)
Definition nothing_allocated (l : Live) : Prop :=
  live_instances l = [] /\ live_devices l = [] /\ live_command_pools l = [].

(** ** Programs over wrappers *)

Module Lifetime.
Section Programs.
Context {T D : Type}.
Abbreviation wrapper := (ManagedResource.t T D).

(** Programs that use wrappers the way C++ code can: construct them,
    move them, reset them, let them go out of scope.  Wrapper objects
    are numbered in order of construction.  A store holds, for each,
    [Some m] while the object is in scope with contents [m], and [None]
    once it is gone. *)
Definition Store : Type := list (option wrapper).

Inductive Op :=
| Construct (raw : T) (destructor : D)
| DefaultConstruct
| MoveConstruct (src : nat)
| MoveAssign (dst src : nat)
| Reset (obj : nat)
| ScopeExit (obj : nat).

Fixpoint update (n : nat) (v : option wrapper) (st : Store) : Store :=
  match st, n with
  | [], _ => []
  | _ :: rest, O => v :: rest
  | x :: rest, S n' => x :: update n' v rest
  end.

(** The object [n], when it is in scope. *)
Definition in_scope (st : Store) (n : nat) : option wrapper :=
  match nth_error st n with
  | Some (Some m) => Some m
  | _ => None
  end.

(** One operation; [None] when it names an object that is not in
    scope.  Move assignment releases the target first and reads the
    source afterwards, so that assigning an object to itself is
    covered. *)
Definition exec (op : Op) (st : Store) (calls : list (D * T))
    : option (Store * list (D * T)) :=
  match op with
  | Construct raw destructor =>
      Some (st ++ [Some (ManagedResource.make raw destructor)], calls)
  | DefaultConstruct =>
      Some (st ++ [Some ManagedResource.empty], calls)
  | MoveConstruct src =>
      match in_scope st src with
      | Some m =>
          let '(new, m') := ManagedResource.move m in
          Some (update src (Some m') st ++ [Some new], calls)
      | None => None
      end
  | MoveAssign dst src =>
      match in_scope st dst with
      | Some d =>
          let '(cs, d') := ManagedResource.destroy d in
          let st1 := update dst (Some d') st in
          match in_scope st1 src with
          | Some m =>
              let '(taken, m') := ManagedResource.move m in
              Some (update src (Some m') (update dst (Some taken) st1),
                    calls ++ cs)
          | None => None
          end
      | None => None
      end
  | Reset obj =>
      match in_scope st obj with
      | Some m =>
          let '(cs, m') := ManagedResource.destroy m in
          Some (update obj (Some m') st, calls ++ cs)
      | None => None
      end
  | ScopeExit obj =>
      match in_scope st obj with
      | Some m =>
          let '(cs, _) := ManagedResource.destroy m in
          Some (update obj None st, calls ++ cs)
      | None => None
      end
  end.

Fixpoint run (ops : list Op) (st : Store) (calls : list (D * T))
    : option (Store * list (D * T)) :=
  match ops with
  | [] => Some (st, calls)
  | op :: rest =>
      match exec op st calls with
      | Some (st', calls') => run rest st' calls'
      | None => None
      end
  end.

(** Counting, for a property [p] of (callback, resource) pairs: the
    calls made, the wrappers holding, the constructions. *)
Definition count (p : D * T -> bool) (calls : list (D * T)) : nat :=
  List.length (filter p calls).

Definition holds (p : D * T -> bool) (o : option wrapper) : nat :=
  match o with
  | Some (Some (raw, destructor)) => if p (destructor, raw) then 1%nat else 0%nat
  | _ => 0%nat
  end.

Definition held (p : D * T -> bool) (st : Store) : nat :=
  list_sum (map (holds p) st).

Definition constructs (p : D * T -> bool) (op : Op) : nat :=
  match op with
  | Construct raw destructor => if p (destructor, raw) then 1%nat else 0%nat
  | _ => 0%nat
  end.

Definition constructed (p : D * T -> bool) (ops : list Op) : nat :=
  list_sum (map (constructs p) ops).
End Programs.
Arguments Op : clear implicits.
Arguments Store : clear implicits.
End Lifetime.

(** ** Notions for the further properties *)

(** The queue family that the recorded graphics index names on the
    chosen physical device. *)
Definition selected_family (vk : Vulkan) (s : VulkanState)
    : option QueueFamilyProperties :=
  nth_error (getQueueFamilyProperties vk (physical_device s))
    (Z.to_nat (graphics_queue_family_index s)).

(** Two objects that agree on every member but the graphics queue family
    index. *)
Definition same_but_index (s s' : VulkanState) : Prop :=
  vk_instance s' = vk_instance s
  /\ vk_device s' = vk_device s
  /\ vk_command_pool s' = vk_command_pool s
  /\ vk_graphics_queue s' = vk_graphics_queue s
  /\ vk_physical_device s' = vk_physical_device s.

(** Characters of the report's number fields. *)
Definition is_decimal_digit (c : ascii) : bool :=
  let n := nat_of_ascii c in ((48 <=? n) && (n <=? 57))%nat.

Definition is_upper_hex_digit (c : ascii) : bool :=
  let n := nat_of_ascii c in
  (((48 <=? n) && (n <=? 57)) || ((65 <=? n) && (n <=? 70)))%nat.

(** Digits in canonical form: not empty, and a leading [0] only as the
    single digit of the value zero. *)
Definition leading_zero_free (digits : string) : Prop :=
  match digits with
  | EmptyString => False
  | String c rest => c = "0"%char -> rest = EmptyString
  end.

Fixpoint string_forallb (p : ascii -> bool) (s : string) : bool :=
  match s with
  | EmptyString => true
  | String c rest => p c && string_forallb p rest
  end.

(** A Vulkan implementation in which command pool creation fails. *)
Module Faulty.

Definition no_command_pool : Vulkan :=
  {| createInstance := createInstance Machine.vk;
     enumeratePhysicalDevices := enumeratePhysicalDevices Machine.vk;
     getQueueFamilyProperties := getQueueFamilyProperties Machine.vk;
     getProperties := getProperties Machine.vk;
     createDevice := createDevice Machine.vk;
     getQueue := getQueue Machine.vk;
     createCommandPool := fun _ _ => None |}.

End Faulty.

(** The native call that releasing a wrapper makes, when the object's
    device reads as [this_device]. *)
Definition release_events (this_device : Handle) (m : Managed) : list Event :=
  match m with
  | None => []
  | Some (i, DestroyInstance) => [EvDestroyInstance i]
  | Some (d, DestroyDevice) => [EvDestroyDevice d]
  | Some (cp, DestroyCommandPoolOfThis) => [EvDestroyCommandPool this_device cp]
  end.

(** * Properties *)

(** ** Integers *)

Lemma to_uint32_small (z : Z) : 0 <= z <= INT_MAX -> to_uint32 z = z.
Proof.
  unfold to_uint32, INT_MAX. intros H. apply Z.mod_small. lia.
Qed.

Lemma to_int_small (z : Z) : 0 <= z <= INT_MAX -> to_int z = z.
Proof.
  unfold to_int, INT_MAX. intros H.
  rewrite Z.mod_small by lia. lia.
Qed.

(** The mask test of the program reads bit 0 of the flags. *)
Lemma graphics_mask_testbit (flags : Z) :
  negb (Z.land flags eGraphics =? 0) = Z.testbit flags 0.
Proof.
  unfold eGraphics.
  change 1 with (Z.ones 1). rewrite Z.land_ones by lia.
  change (2 ^ 1) with 2.
  rewrite Zmod_odd, Z.bit0_odd.
  now destruct (Z.odd flags).
Qed.

(** ** Physical device selection *)

Section Selection.
Variable vk : Vulkan.
Variable vulkan_wsi : VulkanWSI.

Lemma is_graphics_family_capable (qf : QueueFamilyProperties) :
  is_graphics_family qf = graphics_capable qf.
Proof.
  unfold is_graphics_family, graphics_capable.
  now rewrite graphics_mask_testbit.
Qed.

Lemma scan_queue_families_none pd qfs i s :
  existsb graphics_capable qfs = false ->
  scan_queue_families pd qfs i s = s.
Proof.
  revert i. induction qfs as [| qf rest IH]; intros i H; simpl in *.
  - reflexivity.
  - apply orb_false_iff in H as [Hq Hrest].
    rewrite is_graphics_family_capable, Hq. now apply IH.
Qed.

Lemma scan_queue_families_first pd qpre q qpost i s :
  Forall (fun f => graphics_capable f = false) qpre ->
  graphics_capable q = true ->
  0 <= i ->
  i + Z.of_nat (List.length qpre) <= INT_MAX ->
  scan_queue_families pd (qpre ++ q :: qpost) i s =
  set_vk_graphics_queue_family_index (i + Z.of_nat (List.length qpre))
    (set_vk_physical_device pd s).
Proof.
  intros Hpre Hq. revert i.
  induction Hpre as [| f rest Hf _ IH]; intros i Hi Hmax; simpl in *.
  - rewrite is_graphics_family_capable, Hq.
    rewrite Z.add_0_r, to_uint32_small by lia. reflexivity.
  - rewrite is_graphics_family_capable, Hf.
    rewrite to_int_small by lia.
    rewrite IH by lia. f_equal. lia.
Qed.

Lemma scan_physical_devices_skip pre rest s :
  Forall (fun d => suitable vk vulkan_wsi d = false) pre ->
  vk_physical_device s = VK_NULL_HANDLE ->
  scan_physical_devices vk vulkan_wsi (pre ++ rest) s =
  scan_physical_devices vk vulkan_wsi rest s.
Proof.
  intros Hpre Hnull.
  induction Hpre as [| d pre' Hd _ IH]; simpl.
  - reflexivity.
  - unfold suitable in Hd.
    destruct (is_physical_device_supported vulkan_wsi d); simpl in *.
    + rewrite scan_queue_families_none by exact Hd.
      unfold handle_bool. rewrite Hnull. simpl. exact IH.
    + exact IH.
Qed.

Lemma scan_physical_devices_none pds s :
  Forall (fun d => suitable vk vulkan_wsi d = false) pds ->
  vk_physical_device s = VK_NULL_HANDLE ->
  scan_physical_devices vk vulkan_wsi pds s = s.
Proof.
  intros H Hnull.
  rewrite <- (app_nil_r pds), scan_physical_devices_skip by assumption.
  reflexivity.
Qed.

(** C1. Let the enumeration be [pre ++ pd :: post], where no device of
    [pre] is suitable and [pd] is supported, and let the queue families
    of [pd] be [qpre ++ q :: qpost], where no family of [qpre] can do
    graphics and [q] can: [pd] is the first device of the enumeration
    that is supported and has a queue family with queues and the
    graphics bit, and [length qpre] is the lowest index of such a
    family.  Then [choose_physical_device] returns, having recorded
    exactly [pd] and [length qpre].  Handles of enumerated devices are
    not null, and the index fits the [int] that counts it. *)
Theorem choose_physical_device_first_match
    (s : VulkanState) (w : World)
    (pre post : list Handle) (pd : Handle)
    (qpre qpost : list QueueFamilyProperties) (q : QueueFamilyProperties) :
  vk_physical_device s = VK_NULL_HANDLE ->
  enumeratePhysicalDevices vk (instance s) = Some (pre ++ pd :: post) ->
  pd <> VK_NULL_HANDLE ->
  Forall (fun d => suitable vk vulkan_wsi d = false) pre ->
  is_physical_device_supported vulkan_wsi pd = true ->
  getQueueFamilyProperties vk pd = qpre ++ q :: qpost ->
  Forall (fun f => graphics_capable f = false) qpre ->
  graphics_capable q = true ->
  Z.of_nat (List.length qpre) <= INT_MAX ->
  exists s' w',
    choose_physical_device vk vulkan_wsi s w = (Ok tt, s', w')
    /\ physical_device s' = pd
    /\ graphics_queue_family_index s' = Z.of_nat (List.length qpre)
    /\ suitable vk vulkan_wsi pd = true
    /\ s' = set_vk_graphics_queue_family_index (Z.of_nat (List.length qpre))
              (set_vk_physical_device pd s).
Proof.
  intros Hnull Henum Hpd Hpre Hsup Hqfs Hqpre Hq Hmax.
  pose proof (scan_queue_families_first pd qpre q qpost 0 s Hqpre Hq
                (Z.le_refl 0) Hmax) as Hscan.
  rewrite Z.add_0_l in Hscan.
  assert (Hsel : scan_physical_devices vk vulkan_wsi (pre ++ pd :: post) s =
                 set_vk_graphics_queue_family_index (Z.of_nat (List.length qpre))
                   (set_vk_physical_device pd s)).
  { rewrite scan_physical_devices_skip by assumption.
    simpl. rewrite Hsup. simpl. rewrite Hqfs, Hscan. simpl.
    unfold handle_bool.
    destruct (Z.eqb_spec pd VK_NULL_HANDLE); [contradiction | reflexivity]. }
  eexists _, _. split; [| split; [| split; [| split]]].
  - unfold choose_physical_device, bind, this_, native_call, call, modify.
    rewrite Henum. simpl. rewrite Hsel. simpl.
    unfold handle_bool.
    destruct (Z.eqb_spec pd VK_NULL_HANDLE); [contradiction | reflexivity].
  - reflexivity.
  - reflexivity.
  - unfold suitable. rewrite Hsup, Hqfs, existsb_app. simpl.
    rewrite Hq. now rewrite orb_true_r.
  - reflexivity.
Qed.

End Selection.

(** The scenario of two GPUs: the unsupported one is passed over, the
    other is chosen with its graphics family, index 2. *)
Lemma choose_physical_device_first_match_witness :
  exists s' w',
    choose_physical_device Machine.vk (Machine.wsi [1])
      (set_vk_instance (ManagedResource.make 1 DestroyInstance) (VulkanState_init 0))
      World_empty = (Ok tt, s', w')
    /\ physical_device s' = Machine.deviceB
    /\ graphics_queue_family_index s' = 2.
Proof.
  destruct (choose_physical_device_first_match Machine.vk (Machine.wsi [1])
              (set_vk_instance (ManagedResource.make 1 DestroyInstance)
                 (VulkanState_init 0))
              World_empty [Machine.deviceA] [] Machine.deviceB
              [Machine.transfer_family; Machine.compute_family] []
              Machine.graphics_family)
    as (s' & w' & Hrun & Hpd & Hidx & _).
  - reflexivity.
  - reflexivity.
  - discriminate.
  - repeat constructor.
  - reflexivity.
  - reflexivity.
  - repeat constructor.
  - reflexivity.
  - vm_compute. discriminate.
  - exists s', w'. split; [exact Hrun | split; [exact Hpd | exact Hidx]].
Defined.

(** ** Logical device creation *)

Lemma not_found_In (x : Z) (l : list Z) : not_found x l = true <-> ~ In x l.
Proof.
  unfold not_found. rewrite negb_true_iff.
  split.
  - intros H Hin.
    assert (existsb (Z.eqb x) l = true) as E
      by (apply existsb_exists; exists x; split; [exact Hin | apply Z.eqb_refl]).
    congruence.
  - intros Hnin. destruct (existsb (Z.eqb x) l) eqn:E; [| reflexivity].
    apply existsb_exists in E as (y & Hy & Heq).
    apply Z.eqb_eq in Heq. subst y. contradiction.
Qed.

Lemma requested_families_merged (vulkan_wsi : VulkanWSI) (s : VulkanState) :
  requested_families (device_create_info vulkan_wsi s) =
  merged_queue_family_indices
    (physical_device_queue_family_indices vulkan_wsi (physical_device s))
    (graphics_queue_family_index s).
Proof.
  unfold requested_families, device_create_info. simpl.
  rewrite map_map. simpl. apply map_id.
Qed.

(** What [create_device] does when the native call succeeds and the
    device member is still empty: one [createDevice] with
    [device_create_info], one [getQueue] on the new device. *)
Lemma create_device_run (vk : Vulkan) (vulkan_wsi : VulkanWSI)
    (s : VulkanState) (w : World) (d : Handle) :
  vk_device s = ManagedResource.empty ->
  createDevice vk (physical_device s) (device_create_info vulkan_wsi s) = Some d ->
  let q := getQueue vk d (graphics_queue_family_index s) 0 in
  exists w',
    create_device vk vulkan_wsi s w =
      (Ok tt,
       set_vk_graphics_queue q
         (set_vk_device (ManagedResource.make d DestroyDevice) s), w')
    /\ native w' =
       native w ++
       [EvCreateDevice (physical_device s) (device_create_info vulkan_wsi s) d;
        EvGetQueue d (graphics_queue_family_index s) 0 q].
Proof.
  intros Hempty Hcreate q.
  unfold create_device, bind, this_, Log_debug, log, native_call, call, modify,
    assign_managed, ret.
  destruct (physical_device_queue_family_indices vulkan_wsi (physical_device s));
    rewrite Hcreate, Hempty; simpl;
    (eexists; split; [reflexivity | simpl; now rewrite <- app_assoc]).
Qed.

Lemma device_create_info_passed (vk : Vulkan) (vulkan_wsi : VulkanWSI)
    (s : VulkanState) (w : World) :
  passed_to_createDevice vk vulkan_wsi s w (device_create_info vulkan_wsi s).
Proof.
  unfold passed_to_createDevice, create_device, bind, this_, Log_debug, log,
    native_call, call, modify, assign_managed, ret, throw.
  destruct (physical_device_queue_family_indices vulkan_wsi (physical_device s));
    destruct (createDevice vk _ _) as [d |]; simpl.
  2, 4: eexists; reflexivity.
  all: destruct (vk_device s) as [[raw [| |]] |]; simpl;
    eexists _, _; (split; [reflexivity |]); simpl;
    rewrite !in_app_iff; simpl; auto 10.
Qed.

Lemma merged_queue_family_indices_NoDup (l : list Z) (graphics : Z) :
  NoDup l -> NoDup (merged_queue_family_indices l graphics).
Proof.
  intros Hnd. unfold merged_queue_family_indices.
  destruct (not_found graphics l) eqn:E; [| exact Hnd].
  apply not_found_In in E.
  apply NoDup_app; repeat split.
  - exact Hnd.
  - constructor; [intros [] | constructor].
  - intros a Ha [Hb | []]. subst a. contradiction.
Qed.

(** C2 (as stated) fails: when the window system names family 1 twice
    and graphics is family 2, device creation is asked for families
    1, 1, 2. *)
Lemma queue_families_duplicated :
  requested_families (device_create_info (Machine.wsi [1; 1]) Machine.chosen)
    = [1; 1; 2]
  /\ ~ NoDup (requested_families
                (device_create_info (Machine.wsi [1; 1]) Machine.chosen)).
Proof.
  split; [reflexivity |].
  intros H. change (NoDup [1; 1; 2]) in H.
  inversion H as [| x l Hnin _]; subst. apply Hnin. now left.
Qed.

(** C2 (amended). When the window system's list has no duplicates, the
    queue family indices of the create info that [create_device] passes
    to device creation have none, whether or not the graphics family is
    among them. *)
Theorem queue_families_NoDup (vk : Vulkan) (vulkan_wsi : VulkanWSI)
    (s : VulkanState) (w : World) :
  NoDup (physical_device_queue_family_indices vulkan_wsi (physical_device s)) ->
  NoDup (requested_families (device_create_info vulkan_wsi s))
  /\ passed_to_createDevice vk vulkan_wsi s w (device_create_info vulkan_wsi s).
Proof.
  intros Hnd. split; [| apply device_create_info_passed].
  rewrite requested_families_merged.
  now apply merged_queue_family_indices_NoDup.
Qed.

Lemma queue_families_NoDup_witness :
  NoDup (requested_families (device_create_info (Machine.wsi [1]) Machine.chosen)).
Proof.
  apply (queue_families_NoDup Machine.vk (Machine.wsi [1]) Machine.chosen
           World_empty).
  simpl. constructor; [intros [] | constructor].
Defined.

(** C5. The graphics queue family index is among the queue family
    indices of the create info that [create_device] passes to device
    creation, whatever list the window system supplies. *)
Theorem graphics_family_requested (vk : Vulkan) (vulkan_wsi : VulkanWSI)
    (s : VulkanState) (w : World) :
  In (graphics_queue_family_index s)
     (requested_families (device_create_info vulkan_wsi s))
  /\ passed_to_createDevice vk vulkan_wsi s w (device_create_info vulkan_wsi s).
Proof.
  split; [| apply device_create_info_passed].
  rewrite requested_families_merged. unfold merged_queue_family_indices.
  destruct (not_found _ _) eqn:E.
  - apply in_or_app. right. now left.
  - destruct (in_dec Z.eq_dec (graphics_queue_family_index s)
                (physical_device_queue_family_indices vulkan_wsi (physical_device s)))
      as [Hin | Hnin]; [exact Hin |].
    apply not_found_In in Hnin. congruence.
Qed.

(** C10. The queue create infos that [create_device] passes to device
    creation follow the window system's list element for element; the
    graphics family comes last, and only when the list does not have it;
    a non-empty list's first family is the first queue create info. *)
Theorem queue_create_infos_order (vk : Vulkan) (vulkan_wsi : VulkanWSI)
    (s : VulkanState) (w : World) :
  let wsi_families :=
    physical_device_queue_family_indices vulkan_wsi (physical_device s) in
  let graphics := graphics_queue_family_index s in
  pQueueCreateInfos (device_create_info vulkan_wsi s) =
    map (queue_create_info 1) wsi_families ++
    (if in_dec Z.eq_dec graphics wsi_families then []
     else [queue_create_info 1 graphics])
  /\ requested_families (device_create_info vulkan_wsi s) =
       wsi_families ++
       (if in_dec Z.eq_dec graphics wsi_families then [] else [graphics])
  /\ match wsi_families with
     | front :: _ =>
         hd_error (pQueueCreateInfos (device_create_info vulkan_wsi s)) =
         Some (queue_create_info 1 front)
     | [] =>
         pQueueCreateInfos (device_create_info vulkan_wsi s) =
         [queue_create_info 1 graphics]
     end
  /\ passed_to_createDevice vk vulkan_wsi s w (device_create_info vulkan_wsi s).
Proof.
  intros l g.
  assert (Hm : merged_queue_family_indices l g =
               l ++ (if in_dec Z.eq_dec g l then [] else [g])).
  { unfold merged_queue_family_indices.
    destruct (in_dec Z.eq_dec g l) as [Hin | Hnin].
    - destruct (not_found g l) eqn:E.
      + apply not_found_In in E. contradiction.
      + now rewrite app_nil_r.
    - apply not_found_In in Hnin. now rewrite Hnin. }
  assert (Hq : pQueueCreateInfos (device_create_info vulkan_wsi s) =
               map (queue_create_info 1) (merged_queue_family_indices l g))
    by reflexivity.
  split; [| split; [| split]].
  - rewrite Hq, Hm, map_app. now destruct (in_dec Z.eq_dec g l).
  - now rewrite requested_families_merged.
  - rewrite Hq, Hm. destruct l as [| front rest]; reflexivity.
  - apply device_create_info_passed.
Qed.






(** ** Instance creation *)

(** C7. The instance is created with the window system's extensions
    followed by [VK_KHR_surface], each name as often as the window
    system gave it (and [VK_KHR_surface] once more), with the
    application name [vkmark], and with nothing else set: no flags, no
    layers, no versions, no engine name. *)
Theorem create_instance_request (vk : Vulkan) (vulkan_wsi : VulkanWSI)
    (s : VulkanState) (w : World) :
  let ci := instance_create_info vulkan_wsi in
  ci = {| ici_flags := 0;
          pApplicationInfo :=
            Some {| pApplicationName := Some "vkmark";
                    applicationVersion := 0;
                    pEngineName := None;
                    engineVersion := 0;
                    apiVersion := 0 |};
          ppEnabledLayerNames := [];
          ici_ppEnabledExtensionNames :=
            vulkan_extensions vulkan_wsi ++ ["VK_KHR_surface"] |}
  /\ (forall e,
        count_occ string_dec (ici_ppEnabledExtensionNames ci) e =
        (count_occ string_dec (vulkan_extensions vulkan_wsi) e
         + (if string_dec "VK_KHR_surface" e then 1 else 0))%nat)
  /\ match createInstance vk ci with
     | Some i =>
         exists s' w' released,
           create_instance vk vulkan_wsi s w = (Ok tt, s', w')
           /\ vk_instance s' = ManagedResource.make i DestroyInstance
           /\ native w' = native w ++ EvCreateInstance ci i :: released
     | None =>
         create_instance vk vulkan_wsi s w =
         (Throw (SystemError "vk::createInstance"), s, w)
     end.
Proof.
  intros ci. split; [reflexivity | split].
  - intros e. unfold ci, instance_create_info. simpl.
    rewrite count_occ_app. simpl. reflexivity.
  - unfold create_instance, bind, native_call, call, assign_managed, ret, throw.
    fold ci. destruct (createInstance vk ci) as [i |]; [| reflexivity].
    destruct (vk_instance s) as [[raw [| |]] |] eqn:Hm; simpl.
    1-3: eexists _, _, _; split; [reflexivity | split; [reflexivity |]];
      simpl; rewrite <- app_assoc; reflexivity.
    eexists _, _, []. split; [reflexivity | split; reflexivity].
Qed.

(** ** The device report *)

Lemma digit_value_char (d : Z) : 0 <= d < 16 -> digit_value (digit_char d) = d.
Proof.
  intros H.
  assert (d = 0 \/ d = 1 \/ d = 2 \/ d = 3 \/ d = 4 \/ d = 5 \/ d = 6 \/ d = 7
          \/ d = 8 \/ d = 9 \/ d = 10 \/ d = 11 \/ d = 12 \/ d = 13 \/ d = 14
          \/ d = 15) as Hd by lia.
  repeat (destruct Hd as [-> | Hd]; [reflexivity |]). subst d. reflexivity.
Qed.

(** The digits that [render_digits] puts in front of [acc] read back as
    [n]. *)
Lemma render_digits_parse (base : Z) (fuel : nat) :
  2 <= base <= 16 ->
  forall n acc,
    0 <= n < base ^ Z.of_nat fuel ->
    exists k,
      0 <= k
      /\ forall v,
           parse_digits base (render_digits fuel base n acc) v =
           parse_digits base acc (v * base ^ k + n).
Proof.
  intros Hbase. induction fuel as [| fuel IH]; intros n acc Hn.
  - exists 0. split; [lia |]. intros v. simpl in *.
    f_equal. lia.
  - rewrite Nat2Z.inj_succ, Z.pow_succ_r in Hn by lia.
    assert (Hmod : 0 <= n mod base < 16)
      by (pose proof (Z.mod_pos_bound n base); lia).
    pose proof (Z.div_mod n base) as Hdm.
    cbn [render_digits].
    destruct (Z.eqb_spec (n / base) 0) as [E | E].
    + exists 1. split; [lia |]. intros v.
      cbn [parse_digits]. rewrite digit_value_char by exact Hmod.
      f_equal. rewrite Z.pow_1_r. lia.
    + assert (Hq : 0 <= n / base < base ^ Z.of_nat fuel).
      { split; [apply Z.div_pos; lia |].
        apply Z.div_lt_upper_bound; lia. }
      destruct (IH (n / base) (String (digit_char (n mod base)) acc) Hq)
        as (k & Hk & Hparse).
      exists (k + 1). split; [lia |]. intros v.
      rewrite Hparse. cbn [parse_digits].
      rewrite digit_value_char by exact Hmod.
      f_equal. rewrite Z.pow_add_r, Z.pow_1_r by lia. lia.
Qed.

Lemma to_uint32_range (v : Z) : 0 <= to_uint32 v < 2 ^ 32.
Proof. unfold to_uint32. apply Z.mod_pos_bound. lia. Qed.

(** [%X] prints the hexadecimal digits of its argument, [%u] the decimal
    digits. *)
Lemma fmt_X_parse (v : Z) : parse_digits 16 (fmt_X v) 0 = to_uint32 v.
Proof.
  unfold fmt_X.
  destruct (render_digits_parse 16 32 ltac:(lia) (to_uint32 v) "")
    as (k & _ & H).
  - pose proof (to_uint32_range v) as Hr.
    split; [lia |]. eapply Z.lt_trans; [apply Hr | reflexivity].
  - rewrite H. reflexivity.
Qed.

Lemma fmt_u_parse (v : Z) : parse_digits 10 (fmt_u v) 0 = to_uint32 v.
Proof.
  unfold fmt_u.
  destruct (render_digits_parse 10 32 ltac:(lia) (to_uint32 v) "")
    as (k & _ & H).
  - pose proof (to_uint32_range v) as Hr.
    split; [lia |]. eapply Z.lt_trans; [apply Hr | reflexivity].
  - rewrite H. reflexivity.
Qed.


Lemma digit_char_hex (d : Z) :
  0 <= d < 16 -> is_upper_hex_digit (digit_char d) = true.
Proof.
  intros H.
  assert (d = 0 \/ d = 1 \/ d = 2 \/ d = 3 \/ d = 4 \/ d = 5 \/ d = 6 \/ d = 7
          \/ d = 8 \/ d = 9 \/ d = 10 \/ d = 11 \/ d = 12 \/ d = 13 \/ d = 14
          \/ d = 15) as Hd by lia.
  repeat (destruct Hd as [-> | Hd]; [reflexivity |]). subst d. reflexivity.
Qed.

Lemma digit_char_decimal (d : Z) :
  0 <= d < 10 -> is_decimal_digit (digit_char d) = true.
Proof.
  intros H.
  assert (d = 0 \/ d = 1 \/ d = 2 \/ d = 3 \/ d = 4 \/ d = 5 \/ d = 6 \/ d = 7
          \/ d = 8 \/ d = 9) as Hd by lia.
  repeat (destruct Hd as [-> | Hd]; [reflexivity |]). subst d. reflexivity.
Qed.

Lemma render_digits_forallb (p : ascii -> bool) (base : Z) :
  0 < base ->
  (forall d, 0 <= d < base -> p (digit_char d) = true) ->
  forall fuel n acc,
    string_forallb p acc = true ->
    string_forallb p (render_digits fuel base n acc) = true.
Proof.
  intros Hbase Hp. induction fuel as [| fuel IH]; intros n acc Hacc.
  - exact Hacc.
  - cbn [render_digits].
    assert (Hacc' : string_forallb p (String (digit_char (n mod base)) acc) = true).
    { cbn [string_forallb]. rewrite Hp by (apply Z.mod_pos_bound; lia).
      exact Hacc. }
    destruct (n / base =? 0); [exact Hacc' | now apply IH].
Qed.

(** A number below [base ^ k] is printed with at least one and at most
    [k] digits. *)
Lemma render_digits_length (base : Z) :
  2 <= base ->
  forall fuel k n acc,
    (1 <= k <= fuel)%nat ->
    0 <= n < base ^ Z.of_nat k ->
    (1 + String.length acc <= String.length (render_digits fuel base n acc)
     <= k + String.length acc)%nat.
Proof.
  intros Hbase. induction fuel as [| fuel IH]; intros k n acc Hk Hn.
  - lia.
  - cbn [render_digits].
    destruct (Z.eqb_spec (n / base) 0) as [E | E].
    + cbn [String.length]. lia.
    + assert (Hk2 : (2 <= k)%nat).
      { destruct (Nat.eq_dec k 1) as [-> | ]; [| lia].
        exfalso. apply E. apply Z.div_small.
        change (Z.of_nat 1) with 1 in Hn. rewrite Z.pow_1_r in Hn. exact Hn. }
      assert (Hq : 0 <= n / base < base ^ Z.of_nat (k - 1)).
      { split; [apply Z.div_pos; lia |].
        apply Z.div_lt_upper_bound; [lia |].
        rewrite <- Z.pow_succ_r by lia.
        replace (Z.succ (Z.of_nat (k - 1))) with (Z.of_nat k) by lia.
        apply Hn. }
      specialize (IH (k - 1)%nat (n / base)
                    (String (digit_char (n mod base)) acc)
                    ltac:(lia) Hq).
      cbn [String.length] in IH. lia.
Qed.

Lemma c_str_no_NUL (s : string) :
  string_forallb (fun c => negb (Ascii.eqb c zero)) (c_str s) = true
  /\ (String.length (c_str s) <= String.length s)%nat.
Proof.
  induction s as [| c rest [IH1 IH2]]; cbn [c_str].
  - now split.
  - destruct (Ascii.eqb c zero) eqn:E; cbn [string_forallb String.length].
    + split; [reflexivity | lia].
    + rewrite E, IH1. split; [reflexivity | lia].
Qed.

Lemma c_str_prefix (s : string) :
  exists rest,
    s = (c_str s ++ rest)%string
    /\ (rest = EmptyString \/ exists r, rest = String "000" r).
Proof.
  induction s as [| c s' (rest & Hs & Hrest)]; cbn [c_str].
  - exists EmptyString. split; [reflexivity | now left].
  - destruct (Ascii.eqb_spec c zero) as [-> | Hne].
    + exists (String "000" s'). split; [reflexivity |]. right. now exists s'.
    + exists rest. split; [| exact Hrest].
      cbn [append]. now rewrite <- Hs.
Qed.

Lemma fmt_X_shape (v : Z) :
  (1 <= String.length (fmt_X v) <= 8)%nat
  /\ string_forallb is_upper_hex_digit (fmt_X v) = true.
Proof.
  unfold fmt_X. split.
  - pose proof (render_digits_length 16 ltac:(lia) 32 8 (to_uint32 v) ""
                  ltac:(lia)) as H.
    cbn [String.length] in H. rewrite !Nat.add_0_r in H. apply H.
    pose proof (to_uint32_range v) as Hr.
    split; [lia |]. eapply Z.lt_le_trans; [apply Hr | now vm_compute].
  - apply render_digits_forallb; [lia | apply digit_char_hex | reflexivity].
Qed.

Lemma fmt_u_shape (v : Z) :
  (1 <= String.length (fmt_u v) <= 10)%nat
  /\ string_forallb is_decimal_digit (fmt_u v) = true.
Proof.
  unfold fmt_u. split.
  - pose proof (render_digits_length 10 ltac:(lia) 32 10 (to_uint32 v) ""
                  ltac:(lia)) as H.
    cbn [String.length] in H. rewrite !Nat.add_0_r in H. apply H.
    pose proof (to_uint32_range v) as Hr.
    split; [lia |]. eapply Z.lt_le_trans; [apply Hr | now vm_compute].
  - apply render_digits_forallb; [lia | apply digit_char_decimal | reflexivity].
Qed.

Lemma digit_char_nonzero (d : Z) :
  0 < d < 16 -> digit_char d <> "0"%char.
Proof.
  intros H.
  assert (d = 1 \/ d = 2 \/ d = 3 \/ d = 4 \/ d = 5 \/ d = 6 \/ d = 7
          \/ d = 8 \/ d = 9 \/ d = 10 \/ d = 11 \/ d = 12 \/ d = 13 \/ d = 14
          \/ d = 15) as Hd by lia.
  repeat (destruct Hd as [-> | Hd]; [discriminate |]). subst d. discriminate.
Qed.

(** A positive number is printed without a leading zero. *)
Lemma render_digits_head (base : Z) :
  2 <= base <= 16 ->
  forall fuel n acc,
    0 < n < base ^ Z.of_nat fuel ->
    exists c rest,
      render_digits fuel base n acc = String c rest /\ c <> "0"%char.
Proof.
  intros Hbase. induction fuel as [| fuel IH]; intros n acc Hn.
  - change (Z.of_nat 0) with 0 in Hn. rewrite Z.pow_0_r in Hn. lia.
  - rewrite Nat2Z.inj_succ, Z.pow_succ_r in Hn by lia.
    cbn [render_digits].
    destruct (Z.eqb_spec (n / base) 0) as [E | E].
    + exists (digit_char (n mod base)), acc. split; [reflexivity |].
      apply digit_char_nonzero.
      pose proof (Z.div_mod n base) as Hdm.
      pose proof (Z.mod_pos_bound n base) as Hm.
      rewrite E in Hdm. lia.
    + apply IH. split.
      * pose proof (Z.div_pos n base). lia.
      * apply Z.div_lt_upper_bound; lia.
Qed.

(** The digits that [%X] and [%u] print are canonical. *)
Lemma render_digits_canonical (base n : Z) :
  2 <= base <= 16 ->
  0 <= n < base ^ 32 ->
  leading_zero_free (render_digits 32 base n "").
Proof.
  intros Hbase Hn.
  destruct (Z.eq_dec n 0) as [-> | Hne].
  - cbn [render_digits]. rewrite Z.div_0_l by lia. cbn. reflexivity.
  - destruct (render_digits_head base Hbase 32 n "") as (c & rest & -> & Hc).
    + change (Z.of_nat 32) with 32. lia.
    + cbn. intros E. contradiction.
Qed.

Lemma fmt_X_canonical (v : Z) : leading_zero_free (fmt_X v).
Proof.
  unfold fmt_X. apply render_digits_canonical; [lia |].
  pose proof (to_uint32_range v) as Hr.
  split; [lia |]. eapply Z.lt_trans; [apply Hr | reflexivity].
Qed.

Lemma fmt_u_canonical (v : Z) : leading_zero_free (fmt_u v).
Proof.
  unfold fmt_u. apply render_digits_canonical; [lia |].
  pose proof (to_uint32_range v) as Hr.
  split; [lia |]. eapply Z.lt_trans; [apply Hr | reflexivity].
Qed.

Lemma log_info_run (vk : Vulkan) (s : VulkanState) (w : World) :
  log_info vk s w =
  (Ok tt, s,
   {| native := native w;
      logged := logged w ++ report_lines (getProperties vk (physical_device s)) |}).
Proof.
  unfold log_info, bind, this_, Log_info, log, emit_log, report_lines. simpl.
  repeat rewrite <- app_assoc. reflexivity.
Qed.

Lemma times_log_info (vk : Vulkan) (n : nat) (s : VulkanState) (w : World) :
  times n (log_info vk) s w =
  (Ok tt, s,
   {| native := native w;
      logged := logged w ++
                List.concat (repeat (report_lines (getProperties vk (physical_device s))) n) |}).
Proof.
  revert w. induction n as [| n IH]; intros w; simpl.
  - unfold ret. rewrite app_nil_r. now destruct w.
  - unfold bind. rewrite log_info_run, IH. simpl.
    now rewrite <- app_assoc.
Qed.

(** C9. [log_info] logs four messages and nothing else, each its fixed
    label, its field and a newline character: the vendor id and the
    device id after [0x] in upper-case hexadecimal (one to eight
    characters of [0-9A-F], without leading zeros, that read back as the
    32-bit value), the device name as text (the characters of the name
    array up to its first NUL), the driver version in unsigned decimal
    (one to ten digits, without leading zeros, that read back as the
    32-bit value).  It creates and destroys
    nothing and leaves the object as it was, so any number of calls logs
    the same four lines that many times. *)
Theorem log_info_report (vk : Vulkan) (s : VulkanState) (w : World) :
  let props := getProperties vk (physical_device s) in
  let vendor := fmt_X (vendorID props) in
  let dev := fmt_X (deviceID props) in
  let name := c_str (deviceName props) in
  let version := fmt_u (driverVersion props) in
  let newline := String "010" EmptyString in
  let lines :=
    [(LogInfo, ("    Vendor ID:      0x" ++ vendor ++ newline)%string);
     (LogInfo, ("    Device ID:      0x" ++ dev ++ newline)%string);
     (LogInfo, ("    Device Name:    " ++ name ++ newline)%string);
     (LogInfo, ("    Driver Version: " ++ version ++ newline)%string)] in
  log_info vk s w =
    (Ok tt, s, {| native := native w; logged := logged w ++ lines |})
  /\ parse_digits 16 vendor 0 = to_uint32 (vendorID props)
  /\ parse_digits 16 dev 0 = to_uint32 (deviceID props)
  /\ parse_digits 10 version 0 = to_uint32 (driverVersion props)
  /\ (forall n,
        times n (log_info vk) s w =
        (Ok tt, s,
         {| native := native w;
            logged := logged w ++ List.concat (repeat lines n) |}))
  /\ ((1 <= String.length vendor <= 8)%nat
      /\ string_forallb is_upper_hex_digit vendor = true)
  /\ ((1 <= String.length dev <= 8)%nat
      /\ string_forallb is_upper_hex_digit dev = true)
  /\ ((1 <= String.length version <= 10)%nat
      /\ string_forallb is_decimal_digit version = true)
  /\ (leading_zero_free vendor /\ leading_zero_free dev
      /\ leading_zero_free version)
  /\ string_forallb (fun c => negb (Ascii.eqb c "000")) name = true
  /\ exists rest,
       deviceName props = (name ++ rest)%string
       /\ (rest = EmptyString \/ exists r, rest = String "000" r).
Proof.
  intros props vendor dev name version newline lines.
  split; [apply log_info_run |].
  split; [apply fmt_X_parse |].
  split; [apply fmt_X_parse |].
  split; [apply fmt_u_parse |].
  split; [intros n; apply times_log_info |].
  split; [apply fmt_X_shape |].
  split; [apply fmt_X_shape |].
  split; [apply fmt_u_shape |].
  split; [split; [apply fmt_X_canonical
                 | split; [apply fmt_X_canonical | apply fmt_u_canonical]] |].
  split; [apply c_str_no_NUL | apply c_str_prefix].
Qed.

(** ** The methods, case by case *)

Section Runs.
Variable vk : Vulkan.
Variable vulkan_wsi : VulkanWSI.

Lemma create_instance_spec (s : VulkanState) (w : World) :
  vk_instance s = ManagedResource.empty ->
  create_instance vk vulkan_wsi s w =
  match createInstance vk (instance_create_info vulkan_wsi) with
  | Some i =>
      (Ok tt, set_vk_instance (ManagedResource.make i DestroyInstance) s,
       emit (EvCreateInstance (instance_create_info vulkan_wsi) i) w)
  | None => (Throw (SystemError "vk::createInstance"), s, w)
  end.
Proof.
  intros Hempty.
  unfold create_instance, bind, native_call, call, assign_managed, ret, throw.
  destruct (createInstance vk _); [| reflexivity].
  rewrite Hempty. reflexivity.
Qed.

Lemma choose_physical_device_spec (s : VulkanState) (w : World) :
  choose_physical_device vk vulkan_wsi s w =
  match enumeratePhysicalDevices vk (instance s) with
  | Some pds =>
      let s' := scan_physical_devices vk vulkan_wsi pds s in
      (if handle_bool (vk_physical_device s') then Ok tt
       else Throw NoSuitableDeviceError,
       s', emit (EvEnumeratePhysicalDevices (instance s) pds) w)
  | None =>
      (Throw (SystemError "vk::Instance::enumeratePhysicalDevices"), s, w)
  end.
Proof.
  unfold choose_physical_device, bind, this_, native_call, call, modify, ret, throw.
  destruct (enumeratePhysicalDevices vk (instance s)) as [pds |]; [| reflexivity].
  simpl. now destruct (handle_bool _).
Qed.

Lemma create_device_spec (s : VulkanState) (w : World) :
  vk_device s = ManagedResource.empty ->
  exists w0,
    native w0 = native w
    /\ create_device vk vulkan_wsi s w =
       match createDevice vk (physical_device s) (device_create_info vulkan_wsi s) with
       | Some d =>
           let q := getQueue vk d (graphics_queue_family_index s) 0 in
           (Ok tt,
            set_vk_graphics_queue q
              (set_vk_device (ManagedResource.make d DestroyDevice) s),
            emit (EvGetQueue d (graphics_queue_family_index s) 0 q)
              (emit (EvCreateDevice (physical_device s)
                       (device_create_info vulkan_wsi s) d) w0))
       | None => (Throw (SystemError "vk::PhysicalDevice::createDevice"), s, w0)
       end.
Proof.
  intros Hempty.
  unfold create_device, bind, this_, Log_debug, log, native_call, call, modify,
    assign_managed, ret, throw.
  destruct (physical_device_queue_family_indices vulkan_wsi (physical_device s));
    destruct (createDevice vk _ _); rewrite ?Hempty;
    (eexists; split; [| reflexivity]); reflexivity.
Qed.

Lemma create_command_pool_spec (s : VulkanState) (w : World) :
  vk_command_pool s = ManagedResource.empty ->
  create_command_pool vk s w =
  match createCommandPool vk (device s) (command_pool_create_info s) with
  | Some cp =>
      (Ok tt,
       set_vk_command_pool (ManagedResource.make cp DestroyCommandPoolOfThis) s,
       emit (EvCreateCommandPool (device s) (command_pool_create_info s) cp) w)
  | None => (Throw (SystemError "vk::Device::createCommandPool"), s, w)
  end.
Proof.
  intros Hempty.
  unfold create_command_pool, bind, this_, native_call, call, assign_managed,
    ret, throw.
  destruct (createCommandPool vk _ _); [| reflexivity].
  rewrite Hempty. reflexivity.
Qed.

Lemma scan_queue_families_resources pd qfs i s :
  same_resources s (scan_queue_families pd qfs i s)
  /\ (vk_physical_device (scan_queue_families pd qfs i s) = vk_physical_device s
      \/ vk_physical_device (scan_queue_families pd qfs i s) = pd).
Proof.
  revert i. induction qfs as [| qf rest IH]; intros i; simpl.
  - split; [now repeat split | now left].
  - destruct (is_graphics_family qf).
    + split; [now repeat split | now right].
    + apply IH.
Qed.

Lemma scan_physical_devices_resources pds s :
  vk_physical_device s = VK_NULL_HANDLE ->
  same_resources s (scan_physical_devices vk vulkan_wsi pds s)
  /\ (handle_bool (vk_physical_device (scan_physical_devices vk vulkan_wsi pds s))
        = true ->
      In (vk_physical_device (scan_physical_devices vk vulkan_wsi pds s)) pds).
Proof.
  revert s. induction pds as [| pd rest IH]; intros s Hnull; simpl.
  - split; [now repeat split |].
    unfold handle_bool. rewrite Hnull. discriminate.
  - destruct (is_physical_device_supported vulkan_wsi pd); simpl.
    + destruct (scan_queue_families_resources pd
                  (getQueueFamilyProperties vk pd) 0 s) as [Hres Hpd].
      set (s1 := scan_queue_families pd (getQueueFamilyProperties vk pd) 0 s) in *.
      destruct (handle_bool (vk_physical_device s1)) eqn:Hb.
      * split; [exact Hres |]. intros _.
        destruct Hpd as [Hpd | Hpd]; [| now left].
        unfold handle_bool in Hb. rewrite Hpd, Hnull in Hb. discriminate.
      * assert (Hnull1 : vk_physical_device s1 = VK_NULL_HANDLE).
        { unfold handle_bool in Hb. apply negb_false_iff, Z.eqb_eq in Hb.
          exact Hb. }
        destruct (IH s1 Hnull1) as [Hres' Hin].
        split.
        -- destruct Hres as (A & B & C & E), Hres' as (A' & B' & C' & E').
           repeat split; congruence.
        -- intros H. right. now apply Hin.
    + destruct (IH s Hnull) as [Hres Hin].
      split; [exact Hres |]. intros H. right. now apply Hin.
Qed.

(** Construction succeeds exactly along one path: every native call
    answered, a device selected. *)
Lemma VulkanState_new_Ok (garbage : Z) (w : World) (s : VulkanState) (w' : World) :
  VulkanState_new vk vulkan_wsi garbage w = (Ok s, w') ->
  exists i pds d cp,
    let s1 := set_vk_instance (ManagedResource.make i DestroyInstance)
                (VulkanState_init garbage) in
    let s2 := scan_physical_devices vk vulkan_wsi pds s1 in
    let q := getQueue vk d (graphics_queue_family_index s2) 0 in
    let s3 := set_vk_graphics_queue q
                (set_vk_device (ManagedResource.make d DestroyDevice) s2) in
    createInstance vk (instance_create_info vulkan_wsi) = Some i
    /\ enumeratePhysicalDevices vk i = Some pds
    /\ handle_bool (vk_physical_device s2) = true
    /\ createDevice vk (physical_device s2) (device_create_info vulkan_wsi s2) = Some d
    /\ createCommandPool vk d (command_pool_create_info s3) = Some cp
    /\ s = set_vk_command_pool
             (ManagedResource.make cp DestroyCommandPoolOfThis) s3
    /\ native w' =
       native w ++
       [EvCreateInstance (instance_create_info vulkan_wsi) i;
        EvEnumeratePhysicalDevices i pds;
        EvCreateDevice (physical_device s2) (device_create_info vulkan_wsi s2) d;
        EvGetQueue d (graphics_queue_family_index s2) 0 q;
        EvCreateCommandPool d (command_pool_create_info s3) cp].
Proof.
  intros H.
  unfold VulkanState_new, constructor_body, bind in H.
  rewrite create_instance_spec in H by reflexivity.
  destruct (createInstance vk _) as [i |] eqn:Hi; [| discriminate].
  rewrite choose_physical_device_spec in H.
  change (instance (set_vk_instance (ManagedResource.make i DestroyInstance)
                      (VulkanState_init garbage))) with i in H.
  destruct (enumeratePhysicalDevices vk i) as [pds |] eqn:Hpds; [| discriminate].
  cbv beta iota zeta in H.
  set (s1 := set_vk_instance (ManagedResource.make i DestroyInstance)
               (VulkanState_init garbage)) in *.
  set (s2 := scan_physical_devices vk vulkan_wsi pds s1) in *.
  destruct (scan_physical_devices_resources pds s1 eq_refl)
    as [(Hinst & Hdev & Hpool & Hq) _].
  fold s2 in Hinst, Hdev, Hpool, Hq.
  destruct (handle_bool (vk_physical_device s2)) eqn:Hb; [| discriminate].
  destruct (create_device_spec s2
              (emit (EvEnumeratePhysicalDevices i pds)
                 (emit (EvCreateInstance (instance_create_info vulkan_wsi) i) w)))
    as (w0 & Hw0 & Hrun); [exact Hdev |].
  rewrite Hrun in H. clear Hrun.
  destruct (createDevice vk _ _) as [d |] eqn:Hd; [| discriminate].
  cbv beta iota zeta in H.
  rewrite create_command_pool_spec in H by exact Hpool.
  change (device (set_vk_graphics_queue
                    (getQueue vk d (graphics_queue_family_index s2) 0)
                    (set_vk_device (ManagedResource.make d DestroyDevice) s2)))
    with d in H.
  destruct (createCommandPool vk d _) as [cp |] eqn:Hcp; [| discriminate].
  injection H as <- <-.
  exists i, pds, d, cp. cbv zeta. fold s1 s2.
  repeat (split; [first [assumption | reflexivity] |]).
  simpl. rewrite Hw0. simpl.
  repeat rewrite <- app_assoc. reflexivity.
Qed.

End Runs.

(** ** Lifetimes of the native handles *)

Lemma replay_app (l : Live) (a b : list Event) :
  replay l (a ++ b) =
  match replay l a with
  | Some l' => replay l' b
  | None => None
  end.
Proof.
  revert l. induction a as [| e a IH]; intros l; simpl.
  - reflexivity.
  - destruct (step l e); [apply IH | reflexivity].
Qed.

Lemma parent_of_enumerated (pd i : Handle) (pds : list Handle)
    (rest : list (Handle * Handle)) :
  In pd pds ->
  parent_of pd (map (fun p => (p, i)) pds ++ rest) = Some i.
Proof.
  unfold parent_of. induction pds as [| p pds IH]; intros Hin; simpl.
  - destruct Hin.
  - destruct (Z.eqb_spec p pd) as [E | E]; [reflexivity |].
    destruct Hin as [Hin | Hin]; [contradiction | now apply IH].
Qed.

Lemma mem_head (h : Handle) (l : list Handle) : mem h (h :: l) = true.
Proof. unfold mem. simpl. now rewrite Z.eqb_refl. Qed.

(** The five calls of a bring-up are valid in this order and leave one
    instance, one device on it and one command pool on that device. *)
Lemma replay_bring_up (i pd d cp q : Handle) (pds : list Handle)
    (ici : InstanceCreateInfo) (dci : DeviceCreateInfo)
    (cpci : CommandPoolCreateInfo) (family : Z) :
  In pd pds ->
  replay Live_empty
    [EvCreateInstance ici i;
     EvEnumeratePhysicalDevices i pds;
     EvCreateDevice pd dci d;
     EvGetQueue d family 0 q;
     EvCreateCommandPool d cpci cp]
  = Some {| live_instances := [i];
            live_physical_devices := map (fun p => (p, i)) pds ++ [];
            live_devices := [(d, i)];
            live_command_pools := [(cp, d)] |}.
Proof.
  intros Hin.
  cbn [replay step Live_empty live_instances live_physical_devices
       live_devices live_command_pools].
  rewrite mem_head.
  cbn [replay step live_instances live_physical_devices live_devices
       live_command_pools].
  rewrite (parent_of_enumerated pd i pds [] Hin).
  cbn [replay step live_instances live_physical_devices live_devices
       live_command_pools map fst].
  rewrite mem_head.
  cbn [replay step live_instances live_physical_devices live_devices
       live_command_pools map fst].
  rewrite mem_head. reflexivity.
Qed.

(** The three calls of a teardown, after a bring-up: each is valid where
    it stands, and nothing is left. *)
Lemma replay_teardown (i d cp : Handle) (pis : list (Handle * Handle)) :
  let l0 := {| live_instances := [i];
               live_physical_devices := pis;
               live_devices := [(d, i)];
               live_command_pools := [(cp, d)] |} in
  let l1 := {| live_instances := [i];
               live_physical_devices := pis;
               live_devices := [(d, i)];
               live_command_pools := [] |} in
  replay l0 [EvDestroyCommandPool d cp] = Some l1
  /\ exists l3,
       replay l1 [EvDestroyDevice d; EvDestroyInstance i] = Some l3
       /\ nothing_allocated l3.
Proof.
  intros l0 l1. split.
  - unfold l0, l1.
    cbn [replay step live_instances live_physical_devices live_devices
         live_command_pools map fst existsb remove_first].
    unfold pair_eqb. cbn [fst snd].
    rewrite mem_head, !Z.eqb_refl. reflexivity.
  - unfold l1.
    cbn [replay step live_instances live_physical_devices live_devices
         live_command_pools map fst has_parent existsb remove_first negb andb].
    rewrite mem_head.
    cbn [replay step live_instances live_physical_devices live_devices
         live_command_pools map fst snd has_parent existsb remove_first negb andb].
    rewrite Z.eqb_refl.
    cbn [replay step live_instances live_physical_devices live_devices
         live_command_pools map fst snd has_parent existsb remove_first negb andb].
    rewrite mem_head.
    cbn [replay step live_instances live_physical_devices live_devices
         live_command_pools map fst snd has_parent existsb remove_first negb andb].
    rewrite Z.eqb_refl.
    eexists. split; [reflexivity |]. now repeat split.
Qed.

(** C3. When the instance is created and no enumerated physical device
    is suitable - none is both supported by the window system and
    equipped with a queue family that has queues and the graphics bit -
    construction throws the no-suitable-device error and yields no
    object; the instance it had created is destroyed on the way out, and
    no instance, device or command pool is left. *)
Theorem no_suitable_device (vk : Vulkan) (vulkan_wsi : VulkanWSI)
    (garbage : Z) (w : World) (i : Handle) (pds : list Handle) :
  createInstance vk (instance_create_info vulkan_wsi) = Some i ->
  enumeratePhysicalDevices vk i = Some pds ->
  Forall (fun d => suitable vk vulkan_wsi d = false) pds ->
  let calls := [EvCreateInstance (instance_create_info vulkan_wsi) i;
                EvEnumeratePhysicalDevices i pds;
                EvDestroyInstance i] in
  exists w',
    VulkanState_new vk vulkan_wsi garbage w =
      (Throw (runtime_error "No suitable Vulkan physical devices found"), w')
    /\ native w' = native w ++ calls
    /\ exists l, replay Live_empty calls = Some l /\ nothing_allocated l.
Proof.
  intros Hi Hpds Hnone calls.
  unfold VulkanState_new, constructor_body, bind.
  rewrite create_instance_spec, Hi by reflexivity.
  rewrite choose_physical_device_spec.
  change (instance (set_vk_instance (ManagedResource.make i DestroyInstance)
                      (VulkanState_init garbage))) with i.
  rewrite Hpds. cbv beta iota zeta.
  rewrite scan_physical_devices_none by (assumption || reflexivity).
  eexists. split; [reflexivity | split].
  - simpl. now rewrite <- !app_assoc.
  - unfold calls.
    cbn [replay step Live_empty live_instances live_physical_devices
         live_devices live_command_pools].
    rewrite mem_head.
    cbn [replay step live_instances live_physical_devices live_devices
         live_command_pools has_parent existsb negb andb].
    rewrite mem_head.
    cbn [replay step live_instances live_physical_devices live_devices
         live_command_pools has_parent existsb negb andb remove_first].
    rewrite Z.eqb_refl.
    eexists. split; [reflexivity |]. now repeat split.
Qed.

Lemma no_suitable_device_witness :
  exists w',
    VulkanState_new Machine.vk Machine.headless 0 World_empty =
      (Throw (runtime_error "No suitable Vulkan physical devices found"), w')
    /\ native w' =
       [EvCreateInstance (instance_create_info Machine.headless) 1;
        EvEnumeratePhysicalDevices 1 [Machine.deviceA; Machine.deviceB];
        EvDestroyInstance 1].
Proof.
  destruct (no_suitable_device Machine.vk Machine.headless 0 World_empty 1
              [Machine.deviceA; Machine.deviceB] eq_refl eq_refl)
    as (w' & Hnew & Hnative & _).
  - repeat constructor.
  - exists w'. split; [exact Hnew | exact Hnative].
Defined.

(** C6. A constructed object went through instance, device and command
    pool creation, in this order; its teardown destroys the command
    pool, then the device, then the instance.  The command pool is
    destroyed through the device it was created on, which is alive at
    that point; the device is destroyed when it has no command pool
    left, the instance when it has no device left; and nothing remains
    allocated. *)
Theorem teardown_reverse_order (vk : Vulkan) (vulkan_wsi : VulkanWSI)
    (garbage : Z) (s : VulkanState) (w : World) :
  VulkanState_new vk vulkan_wsi garbage World_empty = (Ok s, w) ->
  exists pds pd ici dci cpci family q,
    let i := instance s in
    let d := device s in
    let cp := command_pool s in
    native w =
      [EvCreateInstance ici i;
       EvEnumeratePhysicalDevices i pds;
       EvCreateDevice pd dci d;
       EvGetQueue d family 0 q;
       EvCreateCommandPool d cpci cp]
    /\ native (VulkanState_delete s w) =
       native w ++
       [EvDestroyCommandPool d cp; EvDestroyDevice d; EvDestroyInstance i]
    /\ (exists l,
          replay Live_empty (native w) = Some l
          /\ live_instances l = [i]
          /\ live_devices l = [(d, i)]
          /\ live_command_pools l = [(cp, d)])
    /\ (exists l,
          replay Live_empty (native w ++ [EvDestroyCommandPool d cp]) = Some l
          /\ live_instances l = [i]
          /\ live_devices l = [(d, i)]
          /\ live_command_pools l = [])
    /\ exists l,
         replay Live_empty (native (VulkanState_delete s w)) = Some l
         /\ nothing_allocated l.
Proof.
  intros Hnew.
  destruct (VulkanState_new_Ok vk vulkan_wsi garbage World_empty s w Hnew)
    as (i & pds & d & cp & Hok).
  cbv zeta in Hok.
  set (s1 := set_vk_instance (ManagedResource.make i DestroyInstance)
               (VulkanState_init garbage)) in *.
  set (s2 := scan_physical_devices vk vulkan_wsi pds s1) in *.
  destruct Hok as (Hi & Hpds & Hb & Hd & Hcp & Hs & Hnative).
  destruct (scan_physical_devices_resources vk vulkan_wsi pds s1 eq_refl)
    as [(Hinst & Hdev & Hpool & Hq) Hin].
  fold s2 in Hinst, Hdev, Hpool, Hq, Hin.
  specialize (Hin Hb).
  assert (Hsi : instance s = i).
  { subst s. unfold instance. simpl. now rewrite Hinst. }
  assert (Hsd : device s = d) by (subst s; reflexivity).
  assert (Hsc : command_pool s = cp) by (subst s; reflexivity).
  simpl in Hnative.
  assert (Hdel : native (VulkanState_delete s w) =
                 native w ++
                 [EvDestroyCommandPool d cp; EvDestroyDevice d; EvDestroyInstance i]).
  { subst s. unfold VulkanState_delete, destroy_members, destroy_member.
    simpl. rewrite Hinst. simpl. now rewrite <- !app_assoc. }
  pose proof (replay_bring_up i (physical_device s2) d cp
                (getQueue vk d (graphics_queue_family_index s2) 0) pds
                (instance_create_info vulkan_wsi)
                (device_create_info vulkan_wsi s2)
                (command_pool_create_info
                   (set_vk_graphics_queue
                      (getQueue vk d (graphics_queue_family_index s2) 0)
                      (set_vk_device (ManagedResource.make d DestroyDevice) s2)))
                (graphics_queue_family_index s2) Hin) as Hup.
  rewrite <- Hnative in Hup.
  destruct (replay_teardown i d cp (map (fun p => (p, i)) pds ++ []))
    as (Hcp1 & l3 & Hrest & Hnone).
  cbv zeta in Hcp1, Hrest.
  eexists pds, _, _, _, _, _, _. cbv zeta.
  rewrite Hsi, Hsd, Hsc.
  split; [exact Hnative |].
  split; [exact Hdel |].
  split; [eexists; split; [exact Hup | now repeat split] |].
  split.
  - eexists. split; [rewrite replay_app, Hup; exact Hcp1 |].
    now repeat split.
  - exists l3. split; [| exact Hnone].
    rewrite Hdel.
    change [EvDestroyCommandPool d cp; EvDestroyDevice d; EvDestroyInstance i]
      with ([EvDestroyCommandPool d cp] ++ [EvDestroyDevice d; EvDestroyInstance i]).
    rewrite replay_app, Hup. cbv beta iota.
    rewrite replay_app, Hcp1. exact Hrest.
Qed.

Lemma teardown_reverse_order_witness :
  exists s w,
    VulkanState_new Machine.vk (Machine.wsi [1]) 0 World_empty = (Ok s, w)
    /\ native (VulkanState_delete s w) =
       native w ++
       [EvDestroyCommandPool 2 4; EvDestroyDevice 2; EvDestroyInstance 1].
Proof.
  eexists _, _. split; [reflexivity |].
  match goal with
  | |- native (VulkanState_delete ?s ?w) = _ =>
      destruct (teardown_reverse_order Machine.vk (Machine.wsi [1]) 0 s w eq_refl)
        as (pds & pd & ici & dci & cpci & family & q & _ & Hdel & _)
  end.
  exact Hdel.
Defined.

(** ** Wrappers: every resource released once *)

Section Accounting.
Context {T D : Type}.
Local Open Scope nat_scope.
Import Lifetime.

Abbreviation wrapper := (ManagedResource.t T D).

Implicit Types (st : Store T D) (calls : list (D * T)) (p : D * T -> bool).

Lemma held_app p st st' : held p (st ++ st') = held p st + held p st'.
Proof.
  unfold held. now rewrite map_app, list_sum_app.
Qed.

Lemma held_one p (o : option wrapper) : held p [o] = holds p o.
Proof. unfold held. simpl. lia. Qed.

Lemma holds_empty p : holds p (Some (ManagedResource.empty : wrapper)) = 0.
Proof. reflexivity. Qed.

Lemma holds_gone p : holds p (None : option wrapper) = 0.
Proof. reflexivity. Qed.

Lemma count_app p calls calls' :
  count p (calls ++ calls') = count p calls + count p calls'.
Proof.
  unfold count. now rewrite filter_app, length_app.
Qed.

Lemma nth_error_update_eq st n (v o : option wrapper) :
  nth_error st n = Some o -> nth_error (update n v st) n = Some v.
Proof.
  revert n. induction st as [| x st IH]; intros [| n] H; simpl in *;
    try discriminate; [reflexivity | now apply IH].
Qed.

Lemma nth_error_update_neq st n k (v : option wrapper) :
  n <> k -> nth_error (update n v st) k = nth_error st k.
Proof.
  revert n k. induction st as [| x st IH]; intros [| n] [| k] H; simpl;
    try reflexivity; [contradiction | apply IH; congruence].
Qed.

Lemma held_update p st n (v o : option wrapper) :
  nth_error st n = Some o ->
  held p (update n v st) + holds p o = held p st + holds p v.
Proof.
  revert n. induction st as [| x st IH]; intros [| n] H; simpl in *;
    try discriminate.
  - injection H as ->. unfold held. simpl. lia.
  - specialize (IH n H). unfold held in *. simpl. lia.
Qed.

Lemma in_scope_nth st n (m : wrapper) :
  in_scope st n = Some m -> nth_error st n = Some (Some m).
Proof.
  unfold in_scope. destruct (nth_error st n) as [[m' |] |]; congruence.
Qed.

Lemma destroy_count p (m : wrapper) :
  count p (fst (ManagedResource.destroy m)) = holds p (Some m)
  /\ snd (ManagedResource.destroy m) = ManagedResource.empty.
Proof.
  destruct m as [[raw d] |]; simpl; [| now split].
  unfold count. simpl. now destruct (p (d, raw)).
Qed.

(** One operation keeps the books: what was called plus what is held
    grows by what was constructed. *)
Lemma exec_accounting p (op : Op T D) st calls st' calls' :
  exec op st calls = Some (st', calls') ->
  count p calls' + held p st' = count p calls + held p st + constructs p op.
Proof.
  destruct op as [raw d | | src | dst src | obj | obj]; simpl; intros H.
  - injection H as <- <-. rewrite held_app, held_one.
    change (holds p (Some (ManagedResource.make raw d)))
      with (if p (d, raw) then 1 else 0).
    lia.
  - injection H as <- <-. rewrite held_app, held_one, holds_empty. lia.
  - destruct (in_scope st src) as [m |] eqn:Hm; [| discriminate].
    injection H as <- <-. apply in_scope_nth in Hm.
    rewrite held_app, held_one.
    pose proof (held_update p st src (Some ManagedResource.empty) _ Hm) as Hu.
    rewrite holds_empty in Hu.
    change (@None (T * D)) with (ManagedResource.empty : wrapper). lia.
  - destruct (in_scope st dst) as [m |] eqn:Hm; [| discriminate].
    apply in_scope_nth in Hm.
    destruct (destroy_count p m) as [Hc He].
    destruct (ManagedResource.destroy m) as [cs m'] eqn:Hd.
    cbn [fst snd] in Hc, He. subst m'.
    set (st1 := update dst (Some ManagedResource.empty) st) in *.
    destruct (in_scope st1 src) as [m2 |] eqn:Hm2; [| discriminate].
    apply in_scope_nth in Hm2.
    injection H as <- <-.
    pose proof (held_update p st dst (Some ManagedResource.empty) _ Hm) as H1.
    fold st1 in H1.
    assert (Hdst1 : nth_error st1 dst = Some (Some ManagedResource.empty))
      by (unfold st1; eapply nth_error_update_eq; exact Hm).
    pose proof (held_update p st1 dst (Some m2) _ Hdst1) as H2.
    set (st2 := update dst (Some m2) st1) in *.
    assert (Hsrc2 : nth_error st2 src = Some (Some m2)).
    { destruct (Nat.eq_dec dst src) as [<- | Hne].
      - unfold st2. eapply nth_error_update_eq. exact Hdst1.
      - unfold st2. rewrite nth_error_update_neq by exact Hne. exact Hm2. }
    pose proof (held_update p st2 src (Some ManagedResource.empty) _ Hsrc2) as H3.
    rewrite holds_empty in H1, H2, H3.
    rewrite count_app.
    change (@None (T * D)) with (ManagedResource.empty : wrapper). lia.
  - destruct (in_scope st obj) as [m |] eqn:Hm; [| discriminate].
    apply in_scope_nth in Hm.
    destruct (destroy_count p m) as [Hc He].
    destruct (ManagedResource.destroy m) as [cs m'] eqn:Hd.
    cbn [fst snd] in Hc, He. subst m'. injection H as <- <-.
    pose proof (held_update p st obj (Some ManagedResource.empty) _ Hm) as H1.
    rewrite holds_empty in H1.
    rewrite count_app. lia.
  - destruct (in_scope st obj) as [m |] eqn:Hm; [| discriminate].
    apply in_scope_nth in Hm.
    destruct (destroy_count p m) as [Hc He].
    destruct (ManagedResource.destroy m) as [cs m'] eqn:Hd.
    cbn [fst snd] in Hc, He. injection H as <- <-.
    pose proof (held_update p st obj None _ Hm) as H1.
    rewrite holds_gone in H1.
    rewrite count_app. lia.
Qed.

Lemma run_accounting p (ops : list (Op T D)) st calls st' calls' :
  run ops st calls = Some (st', calls') ->
  count p calls' + held p st' = count p calls + held p st + constructed p ops.
Proof.
  revert st calls. induction ops as [| op ops IH]; intros st calls H; simpl in *.
  - injection H as <- <-. unfold constructed. simpl. lia.
  - destruct (exec op st calls) as [[st1 calls1] |] eqn:He; [| discriminate].
    apply (exec_accounting p) in He. apply IH in H.
    unfold constructed in *. simpl. lia.
Qed.

Lemma held_gone p st : Forall (fun o => o = None) st -> held p st = 0.
Proof.
  induction 1 as [| o st -> _ IH]; [reflexivity |].
  unfold held in *. simpl. exact IH.
Qed.

(** A moved-from object holds nothing: when it goes out of scope, or is
    reset, no callback runs. *)
Lemma moved_from_silent st calls src st1 calls1 (op : Op T D) :
  (exists dst, op = MoveAssign dst src /\ dst <> src) \/ op = MoveConstruct src ->
  exec op st calls = Some (st1, calls1) ->
  in_scope st1 src = Some ManagedResource.empty
  /\ (exists st2, exec (ScopeExit src) st1 calls1 = Some (st2, calls1))
  /\ (exists st2, exec (Reset src) st1 calls1 = Some (st2, calls1)).
Proof.
  intros Hop H.
  assert (Hs : in_scope st1 src = Some ManagedResource.empty).
  { destruct Hop as [(dst & -> & Hne) | ->]; simpl in H.
    - destruct (in_scope st dst) as [m |] eqn:Hm; [| discriminate].
      destruct (ManagedResource.destroy m) as [cs m'].
      destruct (in_scope (update dst (Some m') st) src) as [m2 |] eqn:Hm2;
        [| discriminate].
      injection H as <- <-. apply in_scope_nth in Hm2.
      unfold in_scope.
      erewrite nth_error_update_eq; [reflexivity |].
      rewrite nth_error_update_neq by exact Hne. exact Hm2.
    - destruct (in_scope st src) as [m |] eqn:Hm; [| discriminate].
      injection H as <- <-. apply in_scope_nth in Hm.
      unfold in_scope.
      rewrite nth_error_app1
        by (apply nth_error_Some; erewrite nth_error_update_eq by exact Hm;
            discriminate).
      erewrite nth_error_update_eq by exact Hm. reflexivity. }
  split; [exact Hs |].
  split; simpl; rewrite Hs; simpl; rewrite app_nil_r; eexists; reflexivity.
Qed.

Lemma in_scope_update_eq st n (m : wrapper) (o : option wrapper) :
  nth_error st n = Some o -> in_scope (update n (Some m) st) n = Some m.
Proof.
  intros H. unfold in_scope. now rewrite (nth_error_update_eq st n _ o H).
Qed.

Lemma in_scope_update_neq st n k (v : option wrapper) :
  n <> k -> in_scope (update n v st) k = in_scope st k.
Proof.
  intros H. unfold in_scope. now rewrite nth_error_update_neq.
Qed.

Lemma in_scope_update_gone st n (o : option wrapper) :
  nth_error st n = Some o -> in_scope (update n None st) n = None.
Proof.
  intros H. unfold in_scope. now rewrite (nth_error_update_eq st n _ o H).
Qed.

(** C4. Run any program of wrapper operations from nothing.  In the
    state it reaches, a wrapper that holds a resource invokes its
    callback, once and on that resource, at the first thing that
    happens to it among reset, reassignment and scope exit: each of the
    three appends exactly that call and leaves the wrapper empty (or
    gone, or holding what was assigned).  Construction and move
    construction invoke nothing; a move hands the contents to the new
    wrapper and empties the source.  A wrapper that is empty - never
    assigned, already reset, or moved from by move construction or move
    assignment - invokes nothing at reset, reassignment or scope exit,
    and an object that is gone can no longer be operated on.  Hence, for
    every property of (callback, resource) pairs, the callbacks invoked
    and the wrappers still holding add up to the constructions, and when
    every object has gone out of scope each constructed resource has had
    its callback exactly once. *)
Theorem destructor_runs_once (ops : list (Op T D)) st calls :
  run ops [] [] = Some (st, calls) ->
  (forall p, count p calls + held p st = constructed p ops)
  /\ (Forall (fun o => o = None) st ->
      forall p, count p calls = constructed p ops)
  /\ (forall src st1 calls1,
        exec (MoveConstruct src) st calls = Some (st1, calls1) ->
        calls1 = calls
        /\ (exists st2, exec (ScopeExit src) st1 calls1 = Some (st2, calls1))
        /\ (exists st2, exec (Reset src) st1 calls1 = Some (st2, calls1)))
  /\ (forall dst src st1 calls1,
        dst <> src ->
        exec (MoveAssign dst src) st calls = Some (st1, calls1) ->
        (exists st2, exec (ScopeExit src) st1 calls1 = Some (st2, calls1))
        /\ (exists st2, exec (Reset src) st1 calls1 = Some (st2, calls1)))
  /\ (forall obj raw destructor,
        in_scope st obj = Some (ManagedResource.make raw destructor) ->
        exec (Reset obj) st calls =
          Some (update obj (Some ManagedResource.empty) st,
                calls ++ [(destructor, raw)])
        /\ in_scope (update obj (Some ManagedResource.empty) st) obj =
           Some ManagedResource.empty
        /\ exec (ScopeExit obj) st calls =
           Some (update obj None st, calls ++ [(destructor, raw)])
        /\ in_scope (update obj None st) obj = None
        /\ forall src m,
             src <> obj ->
             in_scope st src = Some m ->
             exec (MoveAssign obj src) st calls =
               Some (update src (Some ManagedResource.empty)
                       (update obj (Some m)
                          (update obj (Some ManagedResource.empty) st)),
                     calls ++ [(destructor, raw)])
             /\ in_scope
                  (update src (Some ManagedResource.empty)
                     (update obj (Some m)
                        (update obj (Some ManagedResource.empty) st))) obj
                = Some m)
  /\ (forall obj,
        in_scope st obj = Some ManagedResource.empty ->
        exec (Reset obj) st calls =
          Some (update obj (Some ManagedResource.empty) st, calls)
        /\ exec (ScopeExit obj) st calls = Some (update obj None st, calls)
        /\ forall src m,
             src <> obj ->
             in_scope st src = Some m ->
             exec (MoveAssign obj src) st calls =
               Some (update src (Some ManagedResource.empty)
                       (update obj (Some m)
                          (update obj (Some ManagedResource.empty) st)),
                     calls))
  /\ (forall src m,
        in_scope st src = Some m ->
        exec (MoveConstruct src) st calls =
          Some (update src (Some ManagedResource.empty) st ++ [Some m], calls)
        /\ in_scope (update src (Some ManagedResource.empty) st ++ [Some m])
             (List.length st) = Some m
        /\ in_scope (update src (Some ManagedResource.empty) st ++ [Some m]) src
           = Some ManagedResource.empty)
  /\ (forall raw destructor,
        exec (Construct raw destructor) st calls =
          Some (st ++ [Some (ManagedResource.make raw destructor)], calls)
        /\ in_scope (st ++ [Some (ManagedResource.make raw destructor)])
             (List.length st) = Some (ManagedResource.make raw destructor))
  /\ (forall obj (op : Op T D),
        in_scope st obj = None ->
        op = Reset obj \/ op = ScopeExit obj \/ op = MoveConstruct obj
        \/ (exists src, op = MoveAssign obj src)
        \/ (exists dst, op = MoveAssign dst obj) ->
        exec op st calls = None).
Proof.
  intros Hrun.
  assert (Hacc : forall p, count p calls + held p st = constructed p ops).
  { intros p. pose proof (run_accounting p ops [] [] st calls Hrun) as H.
    unfold count at 2, held at 2 in H. simpl in H. lia. }
  assert (Hassign : forall obj src (c : wrapper) m,
            src <> obj ->
            in_scope st obj = Some c ->
            in_scope st src = Some m ->
            exec (MoveAssign obj src) st calls =
              Some (update src (Some ManagedResource.empty)
                      (update obj (Some m)
                         (update obj (Some ManagedResource.empty) st)),
                    calls ++ fst (ManagedResource.destroy c))
            /\ in_scope
                 (update src (Some ManagedResource.empty)
                    (update obj (Some m)
                       (update obj (Some ManagedResource.empty) st))) obj
               = Some m).
  { intros obj src c m Hne Hc Hm. cbn [exec]. rewrite Hc.
    destruct c as [[raw d] |]; cbn [ManagedResource.destroy fst];
      (rewrite in_scope_update_neq by congruence); rewrite Hm;
      cbn [ManagedResource.move];
      (split; [reflexivity |]);
      (rewrite in_scope_update_neq by exact Hne);
      apply in_scope_nth in Hc;
      (eapply in_scope_update_eq; eapply nth_error_update_eq; exact Hc). }
  split; [exact Hacc | split; [| split; [| split; [| split; [| split;
    [| split; [| split]]]]]]].
  - intros Hgone p. specialize (Hacc p).
    rewrite (held_gone p st Hgone) in Hacc. lia.
  - intros src st1 calls1 H.
    split.
    + simpl in H. destruct (in_scope st src); [| discriminate].
      now injection H as _ <-.
    + eapply moved_from_silent; [right; reflexivity | exact H].
  - intros dst src st1 calls1 Hne H.
    eapply moved_from_silent; [left; exists dst; split; [reflexivity | exact Hne]
                              | exact H].
  - intros obj raw d Hobj.
    pose proof (in_scope_nth _ _ _ Hobj) as Hnth.
    split; [cbn [exec]; rewrite Hobj; reflexivity |].
    split; [eapply in_scope_update_eq; exact Hnth |].
    split; [cbn [exec]; rewrite Hobj; reflexivity |].
    split; [eapply in_scope_update_gone; exact Hnth |].
    intros src m Hne Hm.
    apply (Hassign obj src (ManagedResource.make raw d) m Hne Hobj Hm).
  - intros obj Hobj.
    split; [cbn [exec]; rewrite Hobj; cbn; now rewrite app_nil_r |].
    split; [cbn [exec]; rewrite Hobj; cbn; now rewrite app_nil_r |].
    intros src m Hne Hm.
    destruct (Hassign obj src ManagedResource.empty m Hne Hobj Hm) as [H _].
    rewrite H. cbn. now rewrite app_nil_r.
  - intros src m Hm.
    pose proof (in_scope_nth _ _ _ Hm) as Hnth.
    assert (Hlen : List.length (update src (Some ManagedResource.empty) st)
                   = List.length st).
    { clear. revert src. induction st as [| x st' IH]; intros [| n]; simpl;
        try reflexivity. now rewrite IH. }
    split; [cbn [exec]; rewrite Hm; reflexivity |].
    split.
    + unfold in_scope. rewrite nth_error_app2 by lia.
      rewrite Hlen, Nat.sub_diag. reflexivity.
    + unfold in_scope.
      rewrite nth_error_app1
        by (apply nth_error_Some; erewrite nth_error_update_eq by exact Hnth;
            discriminate).
      erewrite nth_error_update_eq by exact Hnth. reflexivity.
  - intros raw d. split; [reflexivity |].
    unfold in_scope. rewrite nth_error_app2 by lia.
    rewrite Nat.sub_diag. reflexivity.
  - intros obj op Hobj Hop.
    destruct Hop as [-> | [-> | [-> | [(src & ->) | (dst & ->)]]]];
      cbn [exec]; rewrite ?Hobj; try reflexivity.
    destruct (in_scope st dst) as [c |] eqn:Hc; [| reflexivity].
    destruct (ManagedResource.destroy c) as [cs c'].
    destruct (Nat.eq_dec dst obj) as [-> | Hne]; [congruence |].
    rewrite in_scope_update_neq by exact Hne. now rewrite Hobj.
Qed.

End Accounting.

(** An instance handle built in a temporary, moved into a member, the
    temporary dropped, the member dropped: one call. *)
Lemma destructor_runs_once_witness :
  Lifetime.run
    [Lifetime.Construct 5 DestroyInstance; Lifetime.MoveConstruct 0%nat;
     Lifetime.ScopeExit 0%nat; Lifetime.ScopeExit 1%nat] [] []
  = Some ([None; None], [(DestroyInstance, 5)])
  /\ Lifetime.count (fun _ => true) [(DestroyInstance, 5)] = 1%nat.
Proof.
  split; [reflexivity |].
  pose proof (destructor_runs_once
                [Lifetime.Construct 5 DestroyInstance; Lifetime.MoveConstruct 0%nat;
                 Lifetime.ScopeExit 0%nat; Lifetime.ScopeExit 1%nat]
                [None; None] [(DestroyInstance, 5)] eq_refl) as (_ & Hall & _).
  apply (Hall (Forall_cons _ eq_refl (Forall_cons _ eq_refl (Forall_nil _)))
           (fun _ => true)).
Defined.

(** ** printf, on examples *)

Example fmt_X_vendor : fmt_X 32902 = "8086".
Proof. reflexivity. Qed.

Example fmt_X_letters : fmt_X 48879 = "BEEF".
Proof. reflexivity. Qed.

Example fmt_X_zero : fmt_X 0 = "0".
Proof. reflexivity. Qed.

Example fmt_X_max : fmt_X 4294967295 = "FFFFFFFF".
Proof. reflexivity. Qed.

Example fmt_u_version : fmt_u 88084484 = "88084484".
Proof. reflexivity. Qed.

Example fmt_u_max : fmt_u 4294967295 = "4294967295".
Proof. reflexivity. Qed.

Example fmt_d_family : fmt_d 2 = "2".
Proof. reflexivity. Qed.

Example sprintf_vendor :
  sprintf ("    Vendor ID:      0x%X" ++ LF) (ArgInt 32902)
  = ("    Vendor ID:      0x8086" ++ LF)%string.
Proof. reflexivity. Qed.

Example log_info_machine :
  logged (snd (log_info Machine.vk Machine.chosen World_empty)) =
  [(LogInfo, ("    Vendor ID:      0x8086" ++ LF)%string);
   (LogInfo, ("    Device ID:      0x1927" ++ LF)%string);
   (LogInfo, ("    Device Name:    Mesa GPU" ++ LF)%string);
   (LogInfo, ("    Driver Version: 88084484" ++ LF)%string)].
Proof. reflexivity. Qed.

(** * Further properties *)

(** ** Selection, seen from its result *)

Section SelectionResult.
Variable vk : Vulkan.
Variable vulkan_wsi : VulkanWSI.

Lemma scan_queue_families_finds pd qfs i s :
  existsb graphics_capable qfs = true ->
  vk_physical_device (scan_queue_families pd qfs i s) = pd.
Proof.
  revert i. induction qfs as [| qf rest IH]; intros i H; simpl in *.
  - discriminate.
  - rewrite is_graphics_family_capable.
    destruct (graphics_capable qf); simpl in *; [reflexivity | now apply IH].
Qed.

(** The inner loop either leaves the object alone, or records the device
    with the position of a family that can do graphics. *)
Lemma scan_queue_families_result pd qfs i s :
  0 <= i ->
  i + Z.of_nat (List.length qfs) <= INT_MAX ->
  (existsb graphics_capable qfs = false /\ scan_queue_families pd qfs i s = s)
  \/ (exists k q,
        nth_error qfs k = Some q
        /\ graphics_capable q = true
        /\ scan_queue_families pd qfs i s =
           set_vk_graphics_queue_family_index (i + Z.of_nat k)
             (set_vk_physical_device pd s)).
Proof.
  revert i. induction qfs as [| qf rest IH]; intros i Hi Hmax.
  - left. now split.
  - cbn [scan_queue_families existsb].
    rewrite is_graphics_family_capable.
    cbn [List.length] in Hmax. rewrite Nat2Z.inj_succ in Hmax.
    destruct (graphics_capable qf) eqn:Hq.
    + right. exists 0%nat, qf. repeat split; [exact Hq |].
      rewrite to_uint32_small by lia. now rewrite Z.add_0_r.
    + rewrite to_int_small by lia.
      destruct (IH (i + 1)) as [[Hnone Hs] | (k & q & Hk & Hcap & Hs)];
        try lia.
      * left. now split.
      * right. exists (S k), q. repeat split; [exact Hk | exact Hcap |].
        rewrite Hs, Nat2Z.inj_succ. f_equal. lia.
Qed.

Lemma handle_bool_null (h : Handle) :
  h = VK_NULL_HANDLE -> handle_bool h = false.
Proof. intros ->. reflexivity. Qed.

Lemma handle_bool_false (h : Handle) :
  handle_bool h = false -> h = VK_NULL_HANDLE.
Proof.
  unfold handle_bool. intros H. now apply negb_false_iff, Z.eqb_eq in H.
Qed.

(** What the outer loop has recorded when it has recorded a device. *)
Lemma scan_physical_devices_suitable pds s :
  vk_physical_device s = VK_NULL_HANDLE ->
  handle_bool (vk_physical_device (scan_physical_devices vk vulkan_wsi pds s))
    = true ->
  suitable vk vulkan_wsi
    (vk_physical_device (scan_physical_devices vk vulkan_wsi pds s)) = true.
Proof.
  revert s. induction pds as [| pd rest IH]; intros s Hnull Hb.
  - cbn [scan_physical_devices] in Hb.
    rewrite (handle_bool_null _ Hnull) in Hb. discriminate.
  - cbn [scan_physical_devices] in Hb |- *.
    destruct (is_physical_device_supported vulkan_wsi pd) eqn:Hsup;
      cbn [negb] in Hb |- *; [| now apply IH].
    destruct (existsb graphics_capable (getQueueFamilyProperties vk pd)) eqn:Hex.
    + pose proof (scan_queue_families_finds pd _ 0 s Hex) as Hpd.
      destruct (handle_bool (vk_physical_device
                  (scan_queue_families pd (getQueueFamilyProperties vk pd) 0 s)))
        eqn:Hb1.
      * rewrite Hpd. unfold suitable. now rewrite Hsup, Hex.
      * apply IH; [now apply handle_bool_false | exact Hb].
    + rewrite scan_queue_families_none in Hb |- * by exact Hex.
      rewrite (handle_bool_null _ Hnull) in Hb |- *.
      now apply IH.
Qed.

Lemma scan_physical_devices_index pds s :
  vk_physical_device s = VK_NULL_HANDLE ->
  Forall (fun pd =>
            Z.of_nat (List.length (getQueueFamilyProperties vk pd)) <= INT_MAX)
         pds ->
  handle_bool (vk_physical_device (scan_physical_devices vk vulkan_wsi pds s))
    = true ->
  exists q,
    selected_family vk (scan_physical_devices vk vulkan_wsi pds s) = Some q
    /\ graphics_capable q = true.
Proof.
  intros Hnull Hbound. revert s Hnull.
  induction Hbound as [| pd rest Hpd _ IH]; intros s Hnull Hb.
  - cbn [scan_physical_devices] in Hb.
    rewrite (handle_bool_null _ Hnull) in Hb. discriminate.
  - cbn [scan_physical_devices] in Hb |- *.
    destruct (is_physical_device_supported vulkan_wsi pd);
      cbn [negb] in Hb |- *; [| now apply IH].
    destruct (scan_queue_families_result pd (getQueueFamilyProperties vk pd) 0 s
                (Z.le_refl 0) Hpd)
      as [[_ Hs] | (k & q & Hk & Hcap & Hs)]; rewrite Hs in Hb |- *.
    + rewrite (handle_bool_null _ Hnull) in Hb |- *.
      now apply IH.
    + cbn [vk_physical_device set_vk_graphics_queue_family_index
           set_vk_physical_device] in Hb |- *.
      destruct (handle_bool pd) eqn:Hb1.
      * exists q. split; [| exact Hcap].
        unfold selected_family, physical_device, graphics_queue_family_index.
        cbn [vk_physical_device vk_graphics_queue_family_index
             set_vk_graphics_queue_family_index set_vk_physical_device].
        rewrite Z.add_0_l, Nat2Z.id. exact Hk.
      * apply IH; [| exact Hb].
        apply handle_bool_false in Hb1. exact Hb1.
Qed.

Lemma existsb_suitable_false pds :
  existsb (suitable vk vulkan_wsi) pds = false ->
  Forall (fun d => suitable vk vulkan_wsi d = false) pds.
Proof.
  induction pds as [| pd rest IH]; simpl; intros H; constructor.
  - now apply orb_false_iff in H.
  - apply IH. now apply orb_false_iff in H.
Qed.

(** With handles that are not null, the outer loop records a device
    exactly when some device is suitable. *)
Lemma scan_physical_devices_selects_iff pds s :
  vk_physical_device s = VK_NULL_HANDLE ->
  Forall (fun pd => pd <> VK_NULL_HANDLE) pds ->
  handle_bool (vk_physical_device (scan_physical_devices vk vulkan_wsi pds s))
  = existsb (suitable vk vulkan_wsi) pds.
Proof.
  intros Hnull Hnn. revert s Hnull.
  induction Hnn as [| pd rest Hpd _ IH]; intros s Hnull.
  - cbn [scan_physical_devices existsb]. now apply handle_bool_null.
  - cbn [scan_physical_devices existsb]. unfold suitable at 1.
    destruct (is_physical_device_supported vulkan_wsi pd);
      cbn [negb andb orb]; [| now apply IH].
    destruct (existsb graphics_capable (getQueueFamilyProperties vk pd)) eqn:Hex;
      cbn [orb].
    + pose proof (scan_queue_families_finds pd _ 0 s Hex) as Hsel.
      assert (Hb : handle_bool pd = true).
      { unfold handle_bool. now destruct (Z.eqb_spec pd VK_NULL_HANDLE). }
      rewrite Hsel, Hb. now rewrite Hsel.
    + rewrite scan_queue_families_none by exact Hex.
      rewrite (handle_bool_null _ Hnull). now apply IH.
Qed.

(** X1. Whenever [choose_physical_device] returns, the device it has
    recorded is one of the enumeration, is not null, is supported by the
    window system, and the recorded index names one of its queue
    families, one with queues and the graphics bit; the instance, device
    and command pool wrappers and the queue of the object are untouched.
    Queue family lists fit the [int] counter. *)
Theorem choose_physical_device_sound
    (s : VulkanState) (w : World) (pds : list Handle)
    (s' : VulkanState) (w' : World) :
  vk_physical_device s = VK_NULL_HANDLE ->
  enumeratePhysicalDevices vk (instance s) = Some pds ->
  Forall (fun pd =>
            Z.of_nat (List.length (getQueueFamilyProperties vk pd)) <= INT_MAX)
         pds ->
  choose_physical_device vk vulkan_wsi s w = (Ok tt, s', w') ->
  physical_device s' <> VK_NULL_HANDLE
  /\ In (physical_device s') pds
  /\ is_physical_device_supported vulkan_wsi (physical_device s') = true
  /\ (exists q, selected_family vk s' = Some q /\ graphics_capable q = true)
  /\ same_resources s s'.
Proof.
  intros Hnull Henum Hbound Hrun.
  rewrite choose_physical_device_spec, Henum in Hrun. cbv zeta in Hrun.
  destruct (handle_bool (vk_physical_device
              (scan_physical_devices vk vulkan_wsi pds s))) eqn:Hb;
    [| discriminate].
  injection Hrun as <- <-.
  destruct (scan_physical_devices_resources vk vulkan_wsi pds s Hnull)
    as [Hres Hin].
  pose proof (scan_physical_devices_suitable pds s Hnull Hb) as Hsuit.
  unfold suitable in Hsuit. apply andb_true_iff in Hsuit as [Hsup _].
  split.
  { unfold physical_device. intros E. unfold handle_bool in Hb.
    rewrite E in Hb. discriminate. }
  split; [now apply Hin |].
  split; [exact Hsup |].
  split; [now apply scan_physical_devices_index |].
  exact Hres.
Qed.

(** X10. With an enumeration of handles that are not null,
    [choose_physical_device] returns exactly when some enumerated device
    is suitable; when none is, it throws the no-suitable-device error
    and leaves the object as it was. *)
Theorem choose_physical_device_succeeds_iff
    (s : VulkanState) (w : World) (pds : list Handle) :
  vk_physical_device s = VK_NULL_HANDLE ->
  enumeratePhysicalDevices vk (instance s) = Some pds ->
  Forall (fun pd => pd <> VK_NULL_HANDLE) pds ->
  (existsb (suitable vk vulkan_wsi) pds = true
   /\ exists s' w', choose_physical_device vk vulkan_wsi s w = (Ok tt, s', w'))
  \/ (existsb (suitable vk vulkan_wsi) pds = false
      /\ exists w',
           choose_physical_device vk vulkan_wsi s w =
           (Throw (runtime_error "No suitable Vulkan physical devices found"),
            s, w')).
Proof.
  intros Hnull Henum Hnn.
  rewrite choose_physical_device_spec, Henum. cbv zeta.
  rewrite (scan_physical_devices_selects_iff pds s Hnull Hnn).
  destruct (existsb (suitable vk vulkan_wsi) pds) eqn:Hex.
  - left. split; [reflexivity |]. eexists _, _. reflexivity.
  - right. split; [reflexivity |].
    rewrite scan_physical_devices_none
      by (try apply existsb_suitable_false; assumption).
    eexists. reflexivity.
Qed.

End SelectionResult.

Lemma choose_physical_device_sound_witness :
  exists q,
    selected_family Machine.vk
      (set_vk_graphics_queue_family_index 2
         (set_vk_physical_device Machine.deviceB
            (set_vk_instance (ManagedResource.make 1 DestroyInstance)
               (VulkanState_init 0)))) = Some q
    /\ graphics_capable q = true.
Proof.
  assert (Hb : Forall (fun pd =>
                 Z.of_nat (List.length (getQueueFamilyProperties Machine.vk pd))
                 <= INT_MAX) [Machine.deviceA; Machine.deviceB])
    by (repeat constructor; vm_compute; discriminate).
  destruct (choose_physical_device_sound Machine.vk (Machine.wsi [1])
              (set_vk_instance (ManagedResource.make 1 DestroyInstance)
                 (VulkanState_init 0))
              World_empty [Machine.deviceA; Machine.deviceB] _ _
              eq_refl eq_refl Hb eq_refl) as (_ & _ & _ & Hq & _).
  exact Hq.
Defined.

Lemma choose_physical_device_succeeds_iff_witness :
  exists s' w',
    choose_physical_device Machine.vk (Machine.wsi [1])
      (set_vk_instance (ManagedResource.make 1 DestroyInstance)
         (VulkanState_init 0)) World_empty = (Ok tt, s', w').
Proof.
  assert (Hnn : Forall (fun pd => pd <> VK_NULL_HANDLE)
                  [Machine.deviceA; Machine.deviceB])
    by (repeat constructor; discriminate).
  destruct (choose_physical_device_succeeds_iff Machine.vk (Machine.wsi [1])
              (set_vk_instance (ManagedResource.make 1 DestroyInstance)
                 (VulkanState_init 0))
              World_empty [Machine.deviceA; Machine.deviceB]
              eq_refl eq_refl Hnn) as [[_ H] | [Hf _]].
  - exact H.
  - discriminate Hf.
Defined.

(** ** Construction, path by path *)

Section Construction.
Variable vk : Vulkan.
Variable vulkan_wsi : VulkanWSI.

(** Destroying the members releases the three wrappers in turn and logs
    nothing. *)
Lemma destroy_members_world (s : VulkanState) (w : World) :
  snd (destroy_members s w) =
  {| native := native w
               ++ release_events (device s) (vk_command_pool s)
               ++ release_events (device s) (vk_device s)
               ++ release_events VK_NULL_HANDLE (vk_instance s);
     logged := logged w |}.
Proof.
  unfold destroy_members, destroy_member, device.
  destruct s as [mi md mc gq pd idx]. destruct w as [nat_ log_].
  destruct mc as [[c [| |]] |], md as [[d [| |]] |], mi as [[i [| |]] |];
    cbn; unfold emit; cbn; rewrite <- ?app_assoc, ?app_nil_r; reflexivity.
Qed.

(** Every path through the constructor: which exception, if any, leaves
    it, and which calls are on the trace, the ones of the unwinding
    included. *)
Lemma VulkanState_new_cases (garbage : Z) (w : World) :
  let ici := instance_create_info vulkan_wsi in
  match createInstance vk ici with
  | None =>
      VulkanState_new vk vulkan_wsi garbage w =
      (Throw (SystemError "vk::createInstance"), w)
  | Some i =>
      let s1 := set_vk_instance (ManagedResource.make i DestroyInstance)
                  (VulkanState_init garbage) in
      match enumeratePhysicalDevices vk i with
      | None =>
          exists w',
            VulkanState_new vk vulkan_wsi garbage w =
            (Throw (SystemError "vk::Instance::enumeratePhysicalDevices"), w')
            /\ native w' =
               native w ++ [EvCreateInstance ici i; EvDestroyInstance i]
      | Some pds =>
          let s2 := scan_physical_devices vk vulkan_wsi pds s1 in
          if handle_bool (vk_physical_device s2) then
            let dci := device_create_info vulkan_wsi s2 in
            match createDevice vk (physical_device s2) dci with
            | None =>
                exists w',
                  VulkanState_new vk vulkan_wsi garbage w =
                  (Throw (SystemError "vk::PhysicalDevice::createDevice"), w')
                  /\ native w' =
                     native w ++
                     [EvCreateInstance ici i;
                      EvEnumeratePhysicalDevices i pds;
                      EvDestroyInstance i]
            | Some d =>
                let q := getQueue vk d (graphics_queue_family_index s2) 0 in
                let s3 := set_vk_graphics_queue q
                            (set_vk_device (ManagedResource.make d DestroyDevice) s2) in
                let cpci := command_pool_create_info s3 in
                match createCommandPool vk d cpci with
                | None =>
                    exists w',
                      VulkanState_new vk vulkan_wsi garbage w =
                      (Throw (SystemError "vk::Device::createCommandPool"), w')
                      /\ native w' =
                         native w ++
                         [EvCreateInstance ici i;
                          EvEnumeratePhysicalDevices i pds;
                          EvCreateDevice (physical_device s2) dci d;
                          EvGetQueue d (graphics_queue_family_index s2) 0 q;
                          EvDestroyDevice d;
                          EvDestroyInstance i]
                | Some cp =>
                    exists w',
                      VulkanState_new vk vulkan_wsi garbage w =
                      (Ok (set_vk_command_pool
                             (ManagedResource.make cp DestroyCommandPoolOfThis) s3),
                       w')
                      /\ native w' =
                         native w ++
                         [EvCreateInstance ici i;
                          EvEnumeratePhysicalDevices i pds;
                          EvCreateDevice (physical_device s2) dci d;
                          EvGetQueue d (graphics_queue_family_index s2) 0 q;
                          EvCreateCommandPool d cpci cp]
                end
            end
          else
            exists w',
              VulkanState_new vk vulkan_wsi garbage w =
              (Throw (runtime_error "No suitable Vulkan physical devices found"),
               w')
              /\ native w' =
                 native w ++
                 [EvCreateInstance ici i;
                  EvEnumeratePhysicalDevices i pds;
                  EvDestroyInstance i]
      end
  end.
Proof.
  intros ici. unfold VulkanState_new, constructor_body, bind.
  rewrite create_instance_spec by reflexivity. fold ici.
  destruct (createInstance vk ici) as [i |]; [| now destruct w].
  set (s1 := set_vk_instance (ManagedResource.make i DestroyInstance)
               (VulkanState_init garbage)).
  rewrite choose_physical_device_spec.
  change (instance s1) with i.
  destruct (enumeratePhysicalDevices vk i) as [pds |].
  2: { eexists. split; [reflexivity |]. simpl. now rewrite <- app_assoc. }
  cbv zeta.
  set (s2 := scan_physical_devices vk vulkan_wsi pds s1).
  destruct (scan_physical_devices_resources vk vulkan_wsi pds s1 eq_refl)
    as [(Hinst & Hdev & Hpool & Hq) _].
  fold s2 in Hinst, Hdev, Hpool, Hq.
  assert (Hd2 : device s2 = VK_NULL_HANDLE)
    by (unfold device; rewrite Hdev; reflexivity).
  destruct (handle_bool (vk_physical_device s2)).
  2: { eexists. split; [reflexivity |].
       rewrite destroy_members_world, Hd2, Hpool, Hdev, Hinst. simpl.
       now rewrite <- !app_assoc. }
  destruct (create_device_spec vk vulkan_wsi s2
              (emit (EvEnumeratePhysicalDevices i pds)
                 (emit (EvCreateInstance ici i) w)))
    as (w0 & Hw0 & ->); [exact Hdev |].
  destruct (createDevice vk (physical_device s2)
              (device_create_info vulkan_wsi s2)) as [d |].
  2: { eexists. split; [reflexivity |].
       rewrite destroy_members_world, Hd2, Hpool, Hdev, Hinst. simpl.
       rewrite Hw0. simpl. now rewrite <- !app_assoc. }
  cbv beta iota zeta.
  set (q := getQueue vk d (graphics_queue_family_index s2) 0).
  set (s3 := set_vk_graphics_queue q
               (set_vk_device (ManagedResource.make d DestroyDevice) s2)).
  rewrite create_command_pool_spec by exact Hpool.
  change (device s3) with d.
  destruct (createCommandPool vk d (command_pool_create_info s3)) as [cp |].
  - eexists. split; [reflexivity |].
    simpl. rewrite Hw0. simpl. now rewrite <- !app_assoc.
  - eexists. split; [reflexivity |].
    rewrite destroy_members_world.
    change (device s3) with d.
    change (vk_command_pool s3) with (vk_command_pool s2).
    change (vk_device s3) with (ManagedResource.make d DestroyDevice).
    change (vk_instance s3) with (vk_instance s2).
    rewrite Hpool, Hinst. simpl. rewrite Hw0. simpl.
    now rewrite <- !app_assoc.
Qed.


(** Traces of a bring-up that was abandoned. *)
Lemma replay_instance_only (i : Handle) (ici : InstanceCreateInfo)
    (pds : list Handle) :
  (exists l, replay Live_empty [EvCreateInstance ici i; EvDestroyInstance i]
             = Some l /\ nothing_allocated l)
  /\ (exists l, replay Live_empty
                  [EvCreateInstance ici i;
                   EvEnumeratePhysicalDevices i pds;
                   EvDestroyInstance i] = Some l
                /\ nothing_allocated l).
Proof.
  split.
  - cbn [replay step Live_empty live_instances live_physical_devices
         live_devices live_command_pools has_parent existsb negb].
    rewrite mem_head.
    cbn [andb remove_first]. rewrite Z.eqb_refl.
    eexists. split; [reflexivity |]. now repeat split.
  - cbn [replay step Live_empty live_instances live_physical_devices
         live_devices live_command_pools].
    rewrite mem_head.
    cbn [replay step live_instances live_physical_devices live_devices
         live_command_pools has_parent existsb negb andb].
    rewrite mem_head.
    cbn [andb remove_first]. rewrite Z.eqb_refl.
    eexists. split; [reflexivity |]. now repeat split.
Qed.

Lemma replay_until_device (i pd d q : Handle) (pds : list Handle)
    (ici : InstanceCreateInfo) (dci : DeviceCreateInfo) (family : Z) :
  In pd pds ->
  replay Live_empty
    [EvCreateInstance ici i;
     EvEnumeratePhysicalDevices i pds;
     EvCreateDevice pd dci d;
     EvGetQueue d family 0 q]
  = Some {| live_instances := [i];
            live_physical_devices := map (fun p => (p, i)) pds ++ [];
            live_devices := [(d, i)];
            live_command_pools := [] |}.
Proof.
  intros Hin.
  cbn [replay step Live_empty live_instances live_physical_devices
       live_devices live_command_pools].
  rewrite mem_head.
  cbn [replay step live_instances live_physical_devices live_devices
       live_command_pools].
  rewrite (parent_of_enumerated pd i pds [] Hin).
  cbn [replay step live_instances live_physical_devices live_devices
       live_command_pools map fst].
  rewrite mem_head. reflexivity.
Qed.

(** X2. Construction is all or nothing.  Whatever the Vulkan
    implementation and the window system answer, the native calls of a
    construction form a valid sequence - no handle is used or destroyed
    out of turn - and afterwards either there is an object, owning the
    one instance, the one device on it and the one command pool on that
    device that are alive, or an exception has left and no instance,
    device or command pool is alive. *)
Theorem construction_all_or_nothing (garbage : Z) :
  exists l,
    replay Live_empty
      (native (snd (VulkanState_new vk vulkan_wsi garbage World_empty)))
    = Some l
    /\ match fst (VulkanState_new vk vulkan_wsi garbage World_empty) with
       | Ok s =>
           live_instances l = [instance s]
           /\ live_devices l = [(device s, instance s)]
           /\ live_command_pools l = [(command_pool s, device s)]
       | Throw _ => nothing_allocated l
       end.
Proof.
  pose proof (VulkanState_new_cases garbage World_empty) as H.
  cbv zeta in H.
  destruct (createInstance vk (instance_create_info vulkan_wsi)) as [i |].
  2: { rewrite H. exists Live_empty. split; [reflexivity | now repeat split]. }
  set (s1 := set_vk_instance (ManagedResource.make i DestroyInstance)
               (VulkanState_init garbage)) in *.
  destruct (enumeratePhysicalDevices vk i) as [pds |].
  2: { destruct H as (w' & -> & Hn). cbn [fst snd]. rewrite Hn.
       apply (replay_instance_only i _ []). }
  set (s2 := scan_physical_devices vk vulkan_wsi pds s1) in *.
  destruct (scan_physical_devices_resources vk vulkan_wsi pds s1 eq_refl)
    as [(Hinst & _) Hin].
  fold s2 in Hinst, Hin.
  destruct (handle_bool (vk_physical_device s2)).
  2: { destruct H as (w' & -> & Hn). cbn [fst snd]. rewrite Hn.
       apply (replay_instance_only i _ pds). }
  specialize (Hin eq_refl).
  destruct (createDevice vk (physical_device s2)
              (device_create_info vulkan_wsi s2)) as [d |].
  2: { destruct H as (w' & -> & Hn). cbn [fst snd]. rewrite Hn.
       apply (replay_instance_only i _ pds). }
  destruct (createCommandPool vk d _) as [cp |];
    destruct H as (w' & -> & Hn); cbn [fst snd]; rewrite Hn;
    cbn [app native World_empty].
  - eexists. split; [now apply replay_bring_up |].
    unfold instance, device, command_pool.
    cbn [vk_instance vk_device vk_command_pool set_vk_command_pool
         set_vk_graphics_queue set_vk_device ManagedResource.get
         ManagedResource.make live_instances live_devices live_command_pools].
    rewrite Hinst. now repeat split.
  - match goal with
    | |- exists l, replay _ [?a; ?b; ?c; ?e; ?f; ?g] = _ /\ _ =>
        change [a; b; c; e; f; g] with ([a; b; c; e] ++ [f; g])
    end.
    rewrite replay_app, (replay_until_device i _ d _ pds _ _ _ Hin).
    destruct (replay_teardown i d d (map (fun p => (p, i)) pds ++ []))
      as (_ & l3 & Hrest & Hnone).
    exists l3. split; [exact Hrest | exact Hnone].
Qed.

(** X3. Every way construction can fail.  The exception names the stage:
    a failed native call ([vk::SystemError]) of instance creation,
    enumeration, device creation or command pool creation, or the
    no-suitable-device error.  In each case the trace - the calls that
    create, hand out or destroy handles; property queries are not part
    of it - shows that no later stage has created or fetched anything,
    and that what earlier stages created has been destroyed on the way
    out, in the order in which [destroy_members] releases the members:
    the device before the instance. *)
Theorem construction_failure_paths (garbage : Z) (w : World)
    (e : Exception) (w' : World) :
  VulkanState_new vk vulkan_wsi garbage w = (Throw e, w') ->
  let ici := instance_create_info vulkan_wsi in
  (e = SystemError "vk::createInstance" /\ w' = w)
  \/ (exists i,
        e = SystemError "vk::Instance::enumeratePhysicalDevices"
        /\ native w' = native w ++ [EvCreateInstance ici i; EvDestroyInstance i])
  \/ (exists i pds,
        e = runtime_error "No suitable Vulkan physical devices found"
        /\ native w' =
           native w ++
           [EvCreateInstance ici i; EvEnumeratePhysicalDevices i pds;
            EvDestroyInstance i])
  \/ (exists i pds,
        e = SystemError "vk::PhysicalDevice::createDevice"
        /\ native w' =
           native w ++
           [EvCreateInstance ici i; EvEnumeratePhysicalDevices i pds;
            EvDestroyInstance i])
  \/ (exists i pds pd dci d family q,
        e = SystemError "vk::Device::createCommandPool"
        /\ native w' =
           native w ++
           [EvCreateInstance ici i; EvEnumeratePhysicalDevices i pds;
            EvCreateDevice pd dci d; EvGetQueue d family 0 q;
            EvDestroyDevice d; EvDestroyInstance i]).
Proof.
  intros Hnew ici.
  pose proof (VulkanState_new_cases garbage w) as H. cbv zeta in H. fold ici in H.
  destruct (createInstance vk ici) as [i |].
  2: { rewrite H in Hnew. injection Hnew as <- <-. left. now split. }
  destruct (enumeratePhysicalDevices vk i) as [pds |].
  2: { destruct H as (w1 & Hrun & Hn). rewrite Hrun in Hnew.
       injection Hnew as <- <-. right. left. now exists i. }
  destruct (handle_bool _).
  2: { destruct H as (w1 & Hrun & Hn). rewrite Hrun in Hnew.
       injection Hnew as <- <-. right. right. left. now exists i, pds. }
  destruct (createDevice vk _ _) as [d |].
  2: { destruct H as (w1 & Hrun & Hn). rewrite Hrun in Hnew.
       injection Hnew as <- <-. right. right. right. left. now exists i, pds. }
  destruct (createCommandPool vk d _) as [cp |];
    destruct H as (w1 & Hrun & Hn); rewrite Hrun in Hnew; [discriminate |].
  injection Hnew as <- <-. right. right. right. right.
  eexists i, pds, _, _, d, _, _. split; [reflexivity | exact Hn].
Qed.

(** X4. What a constructed object holds.  Its instance was created with
    the create info of [create_instance]; its physical device is one of
    those enumerated on that instance, not null and suitable; its device
    was created on that physical device with the create info of
    [create_device]; its graphics queue is queue 0 of the graphics
    family on that device; its command pool was created on that device
    for the graphics family, with individual reset allowed.  The calls
    by which the constructor created or obtained handles are these five,
    in this order (the trace does not hold the property queries of the
    selection loop). *)
Theorem constructed_object (garbage : Z) (s : VulkanState) (w : World) :
  VulkanState_new vk vulkan_wsi garbage World_empty = (Ok s, w) ->
  let ici := instance_create_info vulkan_wsi in
  let dci := device_create_info vulkan_wsi s in
  let cpci := {| cp_flags := eResetCommandBuffer;
                 cp_queueFamilyIndex := graphics_queue_family_index s |} in
  createInstance vk ici = Some (instance s)
  /\ physical_device s <> VK_NULL_HANDLE
  /\ suitable vk vulkan_wsi (physical_device s) = true
  /\ createDevice vk (physical_device s) dci = Some (device s)
  /\ vk_graphics_queue s =
     getQueue vk (device s) (graphics_queue_family_index s) 0
  /\ createCommandPool vk (device s) cpci = Some (command_pool s)
  /\ exists pds,
       enumeratePhysicalDevices vk (instance s) = Some pds
       /\ In (physical_device s) pds
       /\ native w =
          [EvCreateInstance ici (instance s);
           EvEnumeratePhysicalDevices (instance s) pds;
           EvCreateDevice (physical_device s) dci (device s);
           EvGetQueue (device s) (graphics_queue_family_index s) 0
             (vk_graphics_queue s);
           EvCreateCommandPool (device s) cpci (command_pool s)].
Proof.
  intros Hnew ici dci cpci.
  destruct (VulkanState_new_Ok vk vulkan_wsi garbage World_empty s w Hnew)
    as (i & pds & d & cp & Hok).
  cbv zeta in Hok.
  set (s1 := set_vk_instance (ManagedResource.make i DestroyInstance)
               (VulkanState_init garbage)) in *.
  set (s2 := scan_physical_devices vk vulkan_wsi pds s1) in *.
  destruct Hok as (Hi & Hpds & Hb & Hd & Hcp & Hs & Hnative).
  destruct (scan_physical_devices_resources vk vulkan_wsi pds s1 eq_refl)
    as [(Hinst & _) Hin].
  fold s2 in Hinst, Hin. specialize (Hin Hb).
  pose proof (scan_physical_devices_suitable vk vulkan_wsi pds s1 eq_refl Hb)
    as Hsuit.
  fold s2 in Hsuit.
  assert (Hsi : instance s = i).
  { subst s. unfold instance. cbn. now rewrite Hinst. }
  assert (Hsd : device s = d) by (subst s; reflexivity).
  assert (Hsc : command_pool s = cp) by (subst s; reflexivity).
  assert (Hsp : physical_device s = physical_device s2) by (subst s; reflexivity).
  assert (Hsg : graphics_queue_family_index s = graphics_queue_family_index s2)
    by (subst s; reflexivity).
  assert (Hsq : vk_graphics_queue s =
                getQueue vk d (graphics_queue_family_index s2) 0)
    by (subst s; reflexivity).
  assert (Hdci : dci = device_create_info vulkan_wsi s2)
    by (subst s; reflexivity).
  assert (Hcpci : cpci =
                  command_pool_create_info
                    (set_vk_graphics_queue
                       (getQueue vk d (graphics_queue_family_index s2) 0)
                       (set_vk_device (ManagedResource.make d DestroyDevice) s2)))
    by (subst s; reflexivity).
  rewrite Hsi, Hsd, Hsc, Hsp, Hsg, Hsq, Hdci, Hcpci.
  split; [exact Hi |].
  split.
  { unfold physical_device. intros E. unfold handle_bool in Hb.
    rewrite E in Hb. discriminate. }
  split; [exact Hsuit |].
  split; [exact Hd |].
  split; [reflexivity |].
  split; [exact Hcp |].
  exists pds. split; [exact Hpds |]. split; [exact Hin | exact Hnative].
Qed.

End Construction.

Lemma construction_failure_paths_witness :
  exists i pds pd dci d family q,
    native (snd (VulkanState_new Faulty.no_command_pool (Machine.wsi [1]) 0
                   World_empty)) =
    native World_empty ++
    [EvCreateInstance (instance_create_info (Machine.wsi [1])) i;
     EvEnumeratePhysicalDevices i pds;
     EvCreateDevice pd dci d; EvGetQueue d family 0 q;
     EvDestroyDevice d; EvDestroyInstance i].
Proof.
  destruct (construction_failure_paths Faulty.no_command_pool
              (Machine.wsi [1]) 0 World_empty
              (SystemError "vk::Device::createCommandPool")
              (snd (VulkanState_new Faulty.no_command_pool (Machine.wsi [1]) 0
                      World_empty))
              eq_refl)
    as [[E _] | [(i & E & _) | [(i & pds & E & _) | [(i & pds & E & _) | H]]]];
    try discriminate E.
  destruct H as (i & pds & pd & dci & d & family & q & _ & Hn).
  now exists i, pds, pd, dci, d, family, q.
Defined.

Lemma constructed_object_witness :
  exists s w,
    VulkanState_new Machine.vk (Machine.wsi [1]) 0 World_empty = (Ok s, w)
    /\ physical_device s = Machine.deviceB
    /\ suitable Machine.vk (Machine.wsi [1]) (physical_device s) = true.
Proof.
  eexists _, _. split; [reflexivity |]. split; [reflexivity |].
  match goal with
  | |- suitable _ _ (physical_device ?s) = true =>
      destruct (constructed_object Machine.vk (Machine.wsi [1]) 0 s _ eq_refl)
        as (_ & _ & H & _)
  end.
  exact H.
Defined.

(** ** The member without an initial value *)

Section Indeterminate.
Variable vk : Vulkan.
Variable vulkan_wsi : VulkanWSI.

Lemma same_but_index_overwritten s1 s2 pd j :
  same_but_index s1 s2 ->
  set_vk_graphics_queue_family_index j (set_vk_physical_device pd s1) =
  set_vk_graphics_queue_family_index j (set_vk_physical_device pd s2).
Proof.
  intros (A & B & C & E & _).
  unfold set_vk_graphics_queue_family_index, set_vk_physical_device. cbn.
  now rewrite A, B, C, E.
Qed.

(** The inner loop does the same to every object: nothing, or one and
    the same overwriting of the two selection members. *)
Lemma scan_queue_families_shape pd qfs i :
  (forall s, scan_queue_families pd qfs i s = s)
  \/ (exists j, forall s,
        scan_queue_families pd qfs i s =
        set_vk_graphics_queue_family_index j (set_vk_physical_device pd s)).
Proof.
  revert i. induction qfs as [| qf rest IH]; intros i; cbn [scan_queue_families].
  - now left.
  - destruct (is_graphics_family qf); [| apply IH].
    right. now exists (to_uint32 i).
Qed.

Lemma scan_physical_devices_index_free pds s1 s2 :
  s1 = s2
  \/ (same_but_index s1 s2 /\ vk_physical_device s1 = VK_NULL_HANDLE) ->
  scan_physical_devices vk vulkan_wsi pds s1 =
  scan_physical_devices vk vulkan_wsi pds s2
  \/ (same_but_index (scan_physical_devices vk vulkan_wsi pds s1)
        (scan_physical_devices vk vulkan_wsi pds s2)
      /\ vk_physical_device (scan_physical_devices vk vulkan_wsi pds s1)
         = VK_NULL_HANDLE).
Proof.
  revert s1 s2. induction pds as [| pd rest IH]; intros s1 s2 H.
  - exact H.
  - destruct H as [-> | [Hsame Hnull]]; [now left |].
    cbn [scan_physical_devices].
    destruct (is_physical_device_supported vulkan_wsi pd); cbn [negb].
    2: { apply IH. right. now split. }
    destruct (scan_queue_families_shape pd (getQueueFamilyProperties vk pd) 0)
      as [Hid | (j & Hset)].
    + rewrite !Hid.
      assert (Hnull2 : vk_physical_device s2 = VK_NULL_HANDLE)
        by (destruct Hsame as (_ & _ & _ & _ & E); congruence).
      rewrite (handle_bool_null _ Hnull), (handle_bool_null _ Hnull2).
      apply IH. right. now split.
    + rewrite !Hset, (same_but_index_overwritten s1 s2 pd j Hsame).
      now left.
Qed.

(** X5. The graphics queue family index has no initial value, and
    construction never depends on it: whatever the member holds before
    the constructor body runs, the outcome - the object or the
    exception, the native calls, the log - is the same. *)
Theorem construction_ignores_initial_index (g1 g2 : Z) (w : World) :
  VulkanState_new vk vulkan_wsi g1 w = VulkanState_new vk vulkan_wsi g2 w.
Proof.
  unfold VulkanState_new, constructor_body, bind.
  rewrite !create_instance_spec by reflexivity.
  destruct (createInstance vk (instance_create_info vulkan_wsi)) as [i |];
    [| reflexivity].
  rewrite !choose_physical_device_spec.
  change (instance (set_vk_instance (ManagedResource.make i DestroyInstance)
                      (VulkanState_init g1))) with i.
  change (instance (set_vk_instance (ManagedResource.make i DestroyInstance)
                      (VulkanState_init g2))) with i.
  destruct (enumeratePhysicalDevices vk i) as [pds |].
  2: { rewrite !destroy_members_world. reflexivity. }
  cbv zeta.
  destruct (scan_physical_devices_index_free pds
              (set_vk_instance (ManagedResource.make i DestroyInstance)
                 (VulkanState_init g1))
              (set_vk_instance (ManagedResource.make i DestroyInstance)
                 (VulkanState_init g2)))
    as [-> | [Hsame Hnull]].
  - right. split; [now repeat split | reflexivity].
  - reflexivity.
  - assert (Hnull2 : vk_physical_device
                       (scan_physical_devices vk vulkan_wsi pds
                          (set_vk_instance (ManagedResource.make i DestroyInstance)
                             (VulkanState_init g2))) = VK_NULL_HANDLE)
      by (destruct Hsame as (_ & _ & _ & _ & E); congruence).
    rewrite (handle_bool_null _ Hnull), (handle_bool_null _ Hnull2).
    rewrite !destroy_members_world. unfold device.
    destruct Hsame as (A & B & C & _ & _). now rewrite A, B, C.
Qed.

End Indeterminate.

(** ** The merged queue family list *)

(** X6. The queue families requested of device creation are exactly the
    window system's families and the graphics family, and no other: the
    window system's list is kept as it is, at most one family is added,
    the request is never empty, and merging the graphics family in once
    more changes nothing. *)
Theorem requested_families_exact (vulkan_wsi : VulkanWSI) (s : VulkanState) :
  let wsi_families :=
    physical_device_queue_family_indices vulkan_wsi (physical_device s) in
  let graphics := graphics_queue_family_index s in
  let families := requested_families (device_create_info vulkan_wsi s) in
  (forall x, In x families <-> In x wsi_families \/ x = graphics)
  /\ firstn (List.length wsi_families) families = wsi_families
  /\ (List.length wsi_families <= List.length families
                              <= List.length wsi_families + 1)%nat
  /\ families <> []
  /\ merged_queue_family_indices families graphics = families.
Proof.
  intros l g families.
  assert (Hf : families = merged_queue_family_indices l g)
    by apply requested_families_merged.
  rewrite Hf. unfold merged_queue_family_indices.
  destruct (not_found g l) eqn:E.
  - assert (Hnf : not_found g (l ++ [g]) = false).
    { destruct (not_found g (l ++ [g])) eqn:E'; [| reflexivity].
      apply not_found_In in E'. exfalso. apply E'.
      apply in_or_app. right. now left. }
    rewrite Hnf. repeat split.
    + intros Hin. apply in_app_or in Hin as [Hin | [<- | []]]; auto.
    + intros [Hin | ->]; apply in_or_app; [now left | right; now left].
    + rewrite firstn_app, Nat.sub_diag, firstn_all. apply app_nil_r.
    + rewrite length_app. simpl. lia.
    + rewrite length_app. simpl. lia.
    + now destruct l.
  - rewrite E. repeat split.
    + auto.
    + intros [Hin | ->]; [exact Hin |].
      destruct (in_dec Z.eq_dec g l) as [Hin | Hnin]; [exact Hin |].
      apply not_found_In in Hnin. congruence.
    + apply firstn_all.
    + lia.
    + lia.
    + intros ->. discriminate E.
Qed.

(** X7. The request to device creation has a duplicate family exactly
    when the window system's list has one: adding the graphics family
    never introduces a duplicate. *)
Theorem requested_families_NoDup_iff (vulkan_wsi : VulkanWSI) (s : VulkanState) :
  NoDup (requested_families (device_create_info vulkan_wsi s))
  <-> NoDup (physical_device_queue_family_indices vulkan_wsi (physical_device s)).
Proof.
  rewrite requested_families_merged. split.
  - unfold merged_queue_family_indices.
    destruct (not_found _ _); [| auto].
    intros H. now apply NoDup_app_remove_r in H.
  - apply merged_queue_family_indices_NoDup.
Qed.

(** ** What is logged *)





Example fmt_d_above_INT_MAX :
  fmt_d 3000000000 = "-1294967296" /\ fmt_d 4294967295 = "-1".
Proof. split; reflexivity. Qed.

(** X9. The fields of the device report.  The vendor id and the device
    id are one to eight characters out of [0-9A-F], the driver version
    is one to ten decimal digits, none with a leading zero (but for the
    value zero itself), and the name field is the name array
    up to its first NUL: the array is the field followed by nothing or
    by a NUL and whatever comes after it, and the field has no NUL.
    Each line ends with a newline character. *)
Theorem log_info_fields (vk : Vulkan) (s : VulkanState) (w : World) :
  let props := getProperties vk (physical_device s) in
  let vendor := fmt_X (vendorID props) in
  let dev := fmt_X (deviceID props) in
  let name := c_str (deviceName props) in
  let version := fmt_u (driverVersion props) in
  let newline := String "010" EmptyString in
  logged (snd (log_info vk s w)) =
    logged w ++
    [(LogInfo, ("    Vendor ID:      0x" ++ vendor ++ newline)%string);
     (LogInfo, ("    Device ID:      0x" ++ dev ++ newline)%string);
     (LogInfo, ("    Device Name:    " ++ name ++ newline)%string);
     (LogInfo, ("    Driver Version: " ++ version ++ newline)%string)]
  /\ (1 <= String.length vendor <= 8)%nat
  /\ string_forallb is_upper_hex_digit vendor = true
  /\ (1 <= String.length dev <= 8)%nat
  /\ string_forallb is_upper_hex_digit dev = true
  /\ (1 <= String.length version <= 10)%nat
  /\ string_forallb is_decimal_digit version = true
  /\ (leading_zero_free vendor /\ leading_zero_free dev
      /\ leading_zero_free version)
  /\ string_forallb (fun c => negb (Ascii.eqb c "000")) name = true
  /\ (String.length name <= String.length (deviceName props))%nat
  /\ exists rest,
       deviceName props = (name ++ rest)%string
       /\ (rest = EmptyString \/ exists r, rest = String "000" r).
Proof.
  intros props vendor dev name version newline.
  split; [rewrite log_info_run; reflexivity |].
  split; [apply fmt_X_shape |]. split; [apply fmt_X_shape |].
  split; [apply fmt_X_shape |]. split; [apply fmt_X_shape |].
  split; [apply fmt_u_shape |]. split; [apply fmt_u_shape |].
  split; [split; [apply fmt_X_canonical
                 | split; [apply fmt_X_canonical | apply fmt_u_canonical]] |].
  split; [apply c_str_no_NUL |]. split; [apply c_str_no_NUL |].
  apply c_str_prefix.
Qed.
